(** * k8s-mongo-operator: event handling and restore selection

    A shallow embedding of [mongoOperator/managers/EventManager.py],
    [mongoOperator/services/KubernetesService.py] and
    [mongoOperator/helpers/RestoreHelper.py].

    Python objects are values of one dynamic type [Value]; a method is a
    function from its positional arguments to a computation, so that a call
    with the wrong number of arguments raises [TypeError] as it does in
    Python.  Every call that leaves the process (Kubernetes API, cloud
    storage, [subprocess], [os]) is recorded in a trace and answered by the
    environment the world carries. *)

From stdpp Require Import base strings gmap list pretty.
From Stdlib Require Import ZArith Lia.

Open Scope Z_scope.
Open Scope string_scope.

(** ** Python values *)

(** [cluster_object.metadata] *)
Record V1ObjectMeta := {
  meta_name : string;
  meta_namespace : string
}.

(** [spec.backups.gcs.service_account.secret_key_ref] *)
Record SecretKeyRef := {
  ref_name : string;
  ref_key : string
}.

(** [spec.backups.gcs].  An optional field is [None] when the attribute is
    missing or holds Python's [None]; [restore_from] is read behind
    [hasattr], so there [None] is the missing attribute. *)
Record GcsBackups := {
  bucket : string;
  prefix : option string;
  restore_bucket : option string;
  restore_from : option string;
  secret_key_ref : SecretKeyRef
}.

(** [V1MongoClusterConfiguration], with the fields the code reads. *)
Record V1MongoClusterConfiguration := {
  metadata : V1ObjectMeta;
  replicas : Z;           (* spec.mongodb.replicas *)
  gcs : GcsBackups        (* spec.backups.gcs *)
}.

(** [V1Secret]: its name, namespace and [data] dictionary. *)
Record V1Secret := {
  secret_name : string;
  secret_namespace : string;
  data : gmap string string
}.

(** A storage blob as [list_blobs] yields it; [time_created] is the POSIX
    time of the store's creation timestamp. *)
Record Blob := {
  blob_name : string;
  time_created : Z
}.

#[warnings="-register-all"]
Inductive Value :=
| VNone
| VStr (s : string)
| VInt (z : Z)
| VBytes (b : string)
| VDict (d : gmap string Value)
| VCluster (c : V1MongoClusterConfiguration)
| VSecret (s : V1Secret)
| VManifest (kind name namespace : string)  (* V1Service, V1beta1StatefulSet *)
| VBlobs (l : list Blob)                    (* the iterator of list_blobs *)
| VObject (class : string).                 (* any other library object *)

(** [str(v)], as [str.format] inserts it for ["{}"].  The escapes of a bytes
    literal are not modelled. *)
Definition py_str (v : Value) : string :=
  match v with
  | VNone => "None"
  | VStr s => s
  | VInt z => pretty z
  | VBytes b => "b'" +:+ b +:+ "'"
  | VDict _ => "{...}"
  | VCluster c => meta_name (metadata c)
  | VSecret s => secret_name s
  | VManifest kind name _ => kind +:+ "/" +:+ name
  | VBlobs _ => "<iterator>"
  | VObject class => "<" +:+ class +:+ ">"
  end.

(** ** Exceptions *)

Inductive PyExc :=
| ApiException (status : Z)
| TypeError (reason : string)
| AttributeError (attr : string)
| KeyError (key : string)
| CalledProcessError (returncode : Z) (stderr stdout : Value)
| SubprocessError (message : string)
| OtherError (class : string).

(** ** Operations that leave the process *)

Inductive Call :=
(* kubernetes.client.CoreV1Api *)
| read_namespaced_secret (name namespace : Value)
| create_namespaced_secret (namespace body : Value)
| patch_namespaced_secret (name namespace body : Value)
| delete_namespaced_secret (name namespace body : Value)
| read_namespaced_service (name namespace : Value)
| create_namespaced_service (namespace body : Value)
| patch_namespaced_service (name namespace body : Value)
| delete_namespaced_service (name namespace body : Value)
(* kubernetes.client.AppsV1beta1Api *)
| read_namespaced_stateful_set (name namespace : Value)
| create_namespaced_stateful_set (namespace body : Value)
| patch_namespaced_stateful_set (name namespace body : Value)
| delete_namespaced_stateful_set (name namespace body : Value)
(* KubernetesResources.createRandomPassword *)
| createRandomPassword
(* google.oauth2 and google.cloud.storage *)
| from_service_account_info (info : Value)
| get_bucket (credentials bucket_name : Value)
| list_blobs (bucket : Value) (prefix : string)
| download_to_filename (bucket : Value) (key file_name : string)
(* subprocess and os *)
| check_output (argv : list string)
| os_remove (path : string).

(** ** Logging *)

Inductive Level := DEBUG | INFO | WARNING | ERROR.

Inductive LogArg :=
| LValue (v : Value)
| LEvent (event : gmap string Value)
| LExc (e : PyExc).

(** One call of the [logging] module: the level, the message template and
    the values handed over with it (to [str.format] or as lazy arguments);
    the rendered text is not modelled. *)
Record LogRecord := {
  levelname : Level;
  msg : string;
  args : list LogArg
}.

(** ** The computation monad: state, trace and exceptions *)

Inductive Outcome (A : Type) :=
| Return (a : A)
| Raise (e : PyExc).
Arguments Return {A} a.
Arguments Raise {A} e.

(** The world: how the environment answers a call after a history of
    calls, the calls issued so far and the log. *)
Record World := {
  respond : list Call -> Call -> Outcome Value;
  trace : list Call;
  log : list LogRecord
}.

Definition M (A : Type) : Type := World -> Outcome A * World.

Definition ret {A} (a : A) : M A := fun w => (Return a, w).

Definition raise {A} (e : PyExc) : M A := fun w => (Raise e, w).

Definition bind {A B} (m : M A) (k : A -> M B) : M B := fun w =>
  match m w with
  | (Return a, w') => k a w'
  | (Raise e, w') => (Raise e, w')
  end.

(** [try: m except <handler applies>: ...]; a handler that answers [None]
    does not match the exception, which then propagates. *)
Definition try_except {A} (m : M A) (handler : PyExc -> option (M A)) : M A :=
  fun w =>
    match m w with
    | (Return a, w') => (Return a, w')
    | (Raise e, w') =>
        match handler e with
        | Some h => h w'
        | None => (Raise e, w')
        end
    end.

Definition lift {A} (o : Outcome A) : M A := fun w => (o, w).

Definition call (c : Call) : M Value := fun w =>
  (respond w (trace w) c,
   {| respond := respond w; trace := trace w ++ [c]; log := log w |}).

Definition logging (l : Level) (m : string) (a : list LogArg) : M unit := fun w =>
  (Return tt,
   {| respond := respond w; trace := trace w;
      log := log w ++ [{| levelname := l; msg := m; args := a |}] |}).

Declare Scope py_scope.
Delimit Scope py_scope with py.
Notation "x <- m ;; k" := (bind m (fun x => k))
  (at level 100, m at next level, k at level 200, right associativity) : py_scope.
Notation "m ;; k" := (bind m (fun _ => k))
  (at level 100, k at level 200, right associativity) : py_scope.
Open Scope py_scope.

(** ** Calling a method *)

Definition PyMethod := list Value -> M Value.

(** The [TypeError] of a call whose positional arguments do not fit the
    parameters of [def f(self, p1, ..., pn)]. *)
Definition arity_error (f : string) (params : list string) (given : nat) : PyExc :=
  if (given <? length params)%nat then
    TypeError (f +:+ "() missing " +:+ pretty (length params - given)%nat
               +:+ " required positional argument(s)")
  else
    TypeError (f +:+ "() takes " +:+ pretty (S (length params))
               +:+ " positional arguments but " +:+ pretty (S given)
               +:+ " were given").

Definition def1 (f p1 : string) (body : Value -> M Value) : PyMethod :=
  fun args =>
    match args with
    | [a1] => body a1
    | _ => raise (arity_error f [p1] (length args))
    end.

Definition def2 (f p1 p2 : string) (body : Value -> Value -> M Value) : PyMethod :=
  fun args =>
    match args with
    | [a1; a2] => body a1 a2
    | _ => raise (arity_error f [p1; p2] (length args))
    end.

Definition def3 (f p1 p2 p3 : string)
    (body : Value -> Value -> Value -> M Value) : PyMethod :=
  fun args =>
    match args with
    | [a1; a2; a3] => body a1 a2 a3
    | _ => raise (arity_error f [p1; p2; p3] (length args))
    end.

(** [obj.metadata]: only a cluster object has it in this model. *)
Definition get_metadata (obj : Value) : M V1ObjectMeta :=
  match obj with
  | VCluster c => ret (metadata c)
  | _ => raise (AttributeError "metadata")
  end.

(** ** Code of the repository that is not among the sources

    [KubernetesResources] and [MongoResources] build request bodies and host
    names; [b64decode] and [json.loads] are the standard library's.  They
    are taken as they are used: as functions of their arguments. *)
Class Helpers := {
  KubernetesResources_createSecret : Value -> Value -> Value -> Value;
  KubernetesResources_createService : Value -> Value;
  MongoResources_getMemberHostname : Z -> string -> string -> string;
  b64decode : string -> Outcome string;
  json_loads : string -> Outcome Value
}.

(** ** KubernetesService.py *)

Module KubernetesService.
Section KubernetesService.
Context `{Helpers}.

(** [OPERATOR_ADMIN_SECRET_FORMAT.format(name)] *)
Definition OPERATOR_ADMIN_SECRET_FORMAT (name : string) : string :=
  name +:+ "-admin-credentials".

(** [client.V1DeleteOptions()] *)
Definition V1DeleteOptions : Value := VObject "V1DeleteOptions".

Definition getSecret : PyMethod :=
  def2 "getSecret" "secret_name" "namespace" (fun secret_name namespace =>
    call (read_namespaced_secret secret_name namespace)).

Definition createSecret : PyMethod :=
  def3 "createSecret" "secret_name" "namespace" "secret_data"
    (fun secret_name namespace secret_data =>
      try_except
        (let secret_body :=
           KubernetesResources_createSecret secret_name namespace secret_data in
         secret <- call (create_namespaced_secret namespace secret_body);;
         logging INFO "Created secret %s in namespace %s"
           [LValue secret_name; LValue namespace];;
         ret secret)
        (fun error =>
           match error with
           | ApiException status =>
               Some (if (status =? 409)%Z then
                       logging WARNING
                         "Tried to create a secret that already existed: {} in namespace {}"
                         [LValue secret_name; LValue namespace];;
                       getSecret [secret_name; namespace]
                     else raise error)
           | _ => None
           end)).

Definition createOperatorAdminSecret : PyMethod :=
  def1 "createOperatorAdminSecret" "cluster_object" (fun cluster_object =>
    password <- call createRandomPassword;;
    let secret_data :=
      VDict (<["password" := password]> {["username" := VStr "root"]}) in
    m <- get_metadata cluster_object;;
    createSecret [VStr (OPERATOR_ADMIN_SECRET_FORMAT (meta_name m));
                  VStr (meta_namespace m); secret_data]).

Definition deleteSecret : PyMethod :=
  def2 "deleteSecret" "name" "namespace" (fun name namespace =>
    let body := V1DeleteOptions in
    call (delete_namespaced_secret name namespace body)).

Definition deleteOperatorAdminSecret : PyMethod :=
  def2 "deleteOperatorAdminSecret" "cluster_name" "namespace"
    (fun cluster_name namespace =>
      deleteSecret [VStr (OPERATOR_ADMIN_SECRET_FORMAT (py_str cluster_name));
                    namespace]).

Definition getService : PyMethod :=
  def2 "getService" "name" "namespace" (fun name namespace =>
    call (read_namespaced_service name namespace)).

Definition createService : PyMethod :=
  def1 "createService" "cluster_object" (fun cluster_object =>
    m <- get_metadata cluster_object;;
    let namespace := VStr (meta_namespace m) in
    let body := KubernetesResources_createService cluster_object in
    call (create_namespaced_service namespace body)).

Definition updateService : PyMethod :=
  def1 "updateService" "cluster_object" (fun cluster_object =>
    m <- get_metadata cluster_object;;
    let name := VStr (meta_name m) in
    let namespace := VStr (meta_namespace m) in
    let body := KubernetesResources_createService cluster_object in
    call (patch_namespaced_service name namespace body)).

Definition deleteService : PyMethod :=
  def2 "deleteService" "name" "namespace" (fun name namespace =>
    let body := V1DeleteOptions in
    call (delete_namespaced_service name namespace body)).

Definition getStatefulSet : PyMethod :=
  def2 "getStatefulSet" "name" "namespace" (fun name namespace =>
    call (read_namespaced_stateful_set name namespace)).

Definition createStatefulSet : PyMethod :=
  def1 "createStatefulSet" "cluster_object" (fun cluster_object =>
    m <- get_metadata cluster_object;;
    let namespace := VStr (meta_namespace m) in
    let body := KubernetesResources_createService cluster_object in
    call (create_namespaced_stateful_set namespace body)).

Definition updateStatefulSet : PyMethod :=
  def1 "updateStatefulSet" "cluster_object" (fun cluster_object =>
    m <- get_metadata cluster_object;;
    let name := VStr (meta_name m) in
    let namespace := VStr (meta_namespace m) in
    let body := KubernetesResources_createService cluster_object in
    call (patch_namespaced_stateful_set name namespace body)).

Definition deleteStatefulSet : PyMethod :=
  def2 "deleteStatefulSet" "name" "namespace" (fun name namespace =>
    let body := V1DeleteOptions in
    call (delete_namespaced_stateful_set name namespace body)).

End KubernetesService.
End KubernetesService.

(** ** EventManager.py *)

Module EventManager.
Section EventManager.
Context `{Helpers}.

(** [EventTypes.__members__]: the names of the enumeration. *)
Definition EventTypes_members : list string := ["ADDED"; "MODIFIED"; "DELETED"].

(** Whether a value can be hashed, which a membership test in a mapping
    does first.  A dict cannot, nor can an object of the Kubernetes client
    (its classes define [__eq__] and no [__hash__]); the objects of classes
    that are not among the sources are taken to be hashable. *)
Definition hashable (v : Value) : bool :=
  match v with
  | VDict _ | VSecret _ | VManifest _ _ _ => false
  | _ => true
  end.

(** [v in EventTypes.__members__], for a value that can be hashed: the keys
    are strings, so a value that is not a string is no member. *)
Definition in_EventTypes (v : Value) : bool :=
  match v with
  | VStr s => bool_decide (s ∈ EventTypes_members)
  | _ => false
  end.

Definition _add (cluster_object : Value) : M Value :=
  KubernetesService.createOperatorAdminSecret [cluster_object];;
  KubernetesService.createService [cluster_object];;
  KubernetesService.createStatefulSet [cluster_object];;
  ret VNone.

Definition _update (cluster_object : Value) : M Value :=
  KubernetesService.updateService [cluster_object];;
  KubernetesService.updateStatefulSet [cluster_object];;
  ret VNone.

Definition _delete (cluster_object : Value) : M Value :=
  KubernetesService.deleteStatefulSet [cluster_object];;
  KubernetesService.deleteService [cluster_object];;
  KubernetesService.deleteOperatorAdminSecret [cluster_object];;
  ret VNone.

Definition event_type_to_action_map : gmap string (Value -> M Value) :=
  <["ADDED" := _add]> (<["MODIFIED" := _update]> {["DELETED" := _delete]}).

Definition _processEvent (event : gmap string Value) : M Value :=
  match event !! "type", event !! "object" with
  | Some event_type, Some event_object =>
      if negb (hashable event_type) then
        raise (TypeError "unhashable type")
      else if negb (in_EventTypes event_type) then
        logging WARNING "Received unknown event type: {}" [LValue event_type];;
        ret VNone
      else
        try_except
          (match event_type_to_action_map !! py_str event_type with
           | Some action => action event_object
           | None => raise (KeyError (py_str event_type))
           end)
          (fun error =>
             match error with
             | ApiException _ =>
                 Some (logging ERROR "API error with {} object {}: {}"
                         [LValue event_type; LValue event_object; LExc error];;
                       ret VNone)
             | _ => None
             end)
  | _, _ =>
      logging WARNING "Received malformed event: {}" [LEvent event];;
      ret VNone
  end.

End EventManager.
End EventManager.

(** ** RestoreHelper.py *)

Module RestoreHelper.
Section RestoreHelper.
Context `{Helpers}.

Definition DEFAULT_BACKUP_PREFIX : string := "backups".

(** [a or b] and [a if a else b] on an optional string: [None] and the
    empty string are false. *)
Definition or_else (a : option string) (b : string) : string :=
  match a with
  | Some s => if decide (s = "") then b else s
  | None => b
  end.

(** ["/tmp/" + v]: string concatenation takes a string only. *)
Definition str_add (s : string) (v : Value) : M string :=
  match v with
  | VStr t => ret (s +:+ t)
  | _ => raise (TypeError "can only concatenate str to str")
  end.

Definition newline : string := String (Ascii.ascii_of_nat 10) "".

Definition _getCredentials (cluster_object : V1MongoClusterConfiguration) : M Value :=
  let secret_key := secret_key_ref (gcs cluster_object) in
  secret <- KubernetesService.getSecret
              [VStr (ref_name secret_key);
               VStr (meta_namespace (metadata cluster_object))];;
  credentials_encoded <-
    match secret with
    | VSecret s =>
        match data s !! ref_key secret_key with
        | Some v => ret v
        | None => raise (KeyError (ref_key secret_key))
        end
    | _ => raise (AttributeError "data")
    end;;
  credentials_json <- lift (b64decode credentials_encoded);;
  lift (json_loads credentials_json).

(** The body of the loop of [_lastBackupFile]:
    [if last_blob is None or blob.time_created > last_blob.time_created]. *)
Definition elect (last_blob : option Blob) (blob : Blob) : option Blob :=
  match last_blob with
  | None => Some blob
  | Some last =>
      if (time_created blob >? time_created last)%Z then Some blob else last_blob
  end.

(** [for blob in blobs: ...], from the current [last_blob]. *)
Fixpoint for_blobs (bucket_name : Value) (blobs : list Blob)
    (last_blob : option Blob) : M (option Blob) :=
  match blobs with
  | [] => ret last_blob
  | blob :: blobs' =>
      logging INFO "Found backup file '%s' in bucket '%s'"
        [LValue (VStr (blob_name blob)); LValue bucket_name];;
      for_blobs bucket_name blobs' (elect last_blob blob)
  end.

(** [last_blob.name if last_blob else None] *)
Definition name_of (last_blob : option Blob) : Value :=
  match last_blob with
  | Some blob => VStr (blob_name blob)
  | None => VNone
  end.

Definition _lastBackupFile (credentials bucket_name : Value) (key : string) : M Value :=
  credentials <- call (from_service_account_info credentials);;
  bucket <- call (get_bucket credentials bucket_name);;
  blobs <- call (list_blobs bucket key);;
  match blobs with
  | VBlobs l =>
      last_blob <- for_blobs bucket_name l None;;
      ret (name_of last_blob)
  | _ => raise (TypeError "object is not iterable")
  end.

Definition getLastBackup (cluster_object : V1MongoClusterConfiguration) : M Value :=
  let prefix := or_else (prefix (gcs cluster_object)) DEFAULT_BACKUP_PREFIX in
  let bucket_name :=
    or_else (restore_bucket (gcs cluster_object)) (bucket (gcs cluster_object)) in
  credentials <- _getCredentials cluster_object;;
  _lastBackupFile credentials (VStr bucket_name) (prefix +:+ "/").

Definition _downloadFile (credentials bucket_name : Value) (key file_name : string)
    : M string :=
  credentials <- call (from_service_account_info credentials);;
  bucket <- call (get_bucket credentials bucket_name);;
  call (download_to_filename bucket key file_name);;
  logging INFO "Backup gcs://%s/%s downloaded to %s"
    [LValue bucket_name; LValue (VStr key); LValue (VStr file_name)];;
  ret file_name.

(** The arguments of [_downloadFile] are evaluated in the order they are
    written: credentials, bucket name, key, file name. *)
Definition _downloadBackup (cluster_object : V1MongoClusterConfiguration)
    (backup_file : Value) : M string :=
  let prefix := or_else (prefix (gcs cluster_object)) DEFAULT_BACKUP_PREFIX in
  credentials <- _getCredentials cluster_object;;
  let bucket_name :=
    or_else (restore_bucket (gcs cluster_object)) (bucket (gcs cluster_object)) in
  let key := prefix +:+ "/" +:+ py_str backup_file in
  file_name <- str_add "/tmp/" backup_file;;
  _downloadFile credentials (VStr bucket_name) key file_name.

(** The message of the [SubprocessError] of [restore]. *)
Definition restore_error_message (backup_file : Value) (hostname : string)
    (returncode : Z) (stderr stdout : Value) : string :=
  "Could not restore '" +:+ py_str backup_file +:+ "' to '" +:+ hostname
  +:+ "'. Return code: " +:+ py_str (VInt returncode) +:+ newline
  +:+ " stderr: '" +:+ py_str stderr +:+ "'" +:+ newline
  +:+ " stdout: '" +:+ py_str stdout +:+ "'".

Definition hostname_of (cluster_object : V1MongoClusterConfiguration) : string :=
  let pod_index := (replicas cluster_object - 1)%Z in
  MongoResources_getMemberHostname pod_index
    (meta_name (metadata cluster_object))
    (meta_namespace (metadata cluster_object)).

Definition mongorestore (hostname downloaded_file : string) : Call :=
  check_output ["mongorestore"; "--host"; hostname; "--gzip"; "--archive";
                downloaded_file].

Definition restore (cluster_object : V1MongoClusterConfiguration)
    (backup_file : Value) : M Value :=
  let hostname := hostname_of cluster_object in
  logging INFO "Restoring backup file %s to cluster %s @ ns/%s on %s."
    [LValue backup_file; LValue (VStr (meta_name (metadata cluster_object)));
     LValue (VStr (meta_namespace (metadata cluster_object)));
     LValue (VStr hostname)];;
  downloaded_file <- _downloadBackup cluster_object backup_file;;
  restore_output <-
    try_except (call (mongorestore hostname downloaded_file))
      (fun err =>
         match err with
         | CalledProcessError returncode stderr stdout =>
             Some (raise (SubprocessError
                     (restore_error_message backup_file hostname
                        returncode stderr stdout)))
         | _ => None
         end);;
  logging DEBUG "Restore output: %s" [LValue restore_output];;
  call (os_remove downloaded_file);;
  ret VNone.

Definition restoreIfNeeded (cluster_object : V1MongoClusterConfiguration) : M bool :=
  match restore_from (gcs cluster_object) with
  | Some source =>
      backup_file <-
        (if decide (source = "latest") then getLastBackup cluster_object
         else ret (VStr source));;
      logging INFO "Attempting to restore file %s to Cluster %s @ ns/%s."
        [LValue backup_file; LValue (VStr (meta_name (metadata cluster_object)));
         LValue (VStr (meta_namespace (metadata cluster_object)))];;
      restore cluster_object backup_file;;
      ret true
  | None => ret false
  end.

End RestoreHelper.
End RestoreHelper.

(** ** A reference platform

    An in-memory orchestration platform, backup bucket and restore
    executable, used to run the code on concrete inputs: a create of a name
    that exists answers 409 (conflict), a read, patch or delete of a name
    that does not exist answers 404. *)

Module Platform.

Record Store := {
  secrets : gmap (string * string) Value;
  services : gmap (string * string) Value;
  stateful_sets : gmap (string * string) Value;
  bucket_blobs : list Blob;        (* what the bucket holds *)
  mongorestore_exit : Z            (* exit code of the restore executable *)
}.

Definition body_name (body : Value) : string :=
  match body with
  | VSecret s => secret_name s
  | VManifest _ name _ => name
  | _ => py_str body
  end.

Definition kind_create (m : gmap (string * string) Value) (namespace body : Value)
    : Outcome Value * gmap (string * string) Value :=
  let k := (py_str namespace, body_name body) in
  match m !! k with
  | Some _ => (Raise (ApiException 409), m)
  | None => (Return body, <[k := body]> m)
  end.

Definition kind_read (m : gmap (string * string) Value) (name namespace : Value)
    : Outcome Value :=
  match m !! (py_str namespace, py_str name) with
  | Some v => Return v
  | None => Raise (ApiException 404)
  end.

Definition kind_patch (m : gmap (string * string) Value) (name namespace body : Value)
    : Outcome Value * gmap (string * string) Value :=
  let k := (py_str namespace, py_str name) in
  match m !! k with
  | Some _ => (Return body, <[k := body]> m)
  | None => (Raise (ApiException 404), m)
  end.

Definition kind_delete (m : gmap (string * string) Value) (name namespace : Value)
    : Outcome Value * gmap (string * string) Value :=
  let k := (py_str namespace, py_str name) in
  match m !! k with
  | Some _ => (Return (VObject "V1Status"), delete k m)
  | None => (Raise (ApiException 404), m)
  end.

Definition with_secrets (st : Store) (r : Outcome Value * gmap (string * string) Value)
    : Outcome Value * Store :=
  (r.1, {| secrets := r.2; services := services st;
           stateful_sets := stateful_sets st; bucket_blobs := bucket_blobs st;
           mongorestore_exit := mongorestore_exit st |}).

Definition with_services (st : Store) (r : Outcome Value * gmap (string * string) Value)
    : Outcome Value * Store :=
  (r.1, {| secrets := secrets st; services := r.2;
           stateful_sets := stateful_sets st; bucket_blobs := bucket_blobs st;
           mongorestore_exit := mongorestore_exit st |}).

Definition with_stateful_sets (st : Store)
    (r : Outcome Value * gmap (string * string) Value) : Outcome Value * Store :=
  (r.1, {| secrets := secrets st; services := services st;
           stateful_sets := r.2; bucket_blobs := bucket_blobs st;
           mongorestore_exit := mongorestore_exit st |}).

Definition step (st : Store) (c : Call) : Outcome Value * Store :=
  match c with
  | read_namespaced_secret n ns => (kind_read (secrets st) n ns, st)
  | create_namespaced_secret ns b => with_secrets st (kind_create (secrets st) ns b)
  | patch_namespaced_secret n ns b => with_secrets st (kind_patch (secrets st) n ns b)
  | delete_namespaced_secret n ns _ => with_secrets st (kind_delete (secrets st) n ns)
  | read_namespaced_service n ns => (kind_read (services st) n ns, st)
  | create_namespaced_service ns b => with_services st (kind_create (services st) ns b)
  | patch_namespaced_service n ns b => with_services st (kind_patch (services st) n ns b)
  | delete_namespaced_service n ns _ => with_services st (kind_delete (services st) n ns)
  | read_namespaced_stateful_set n ns => (kind_read (stateful_sets st) n ns, st)
  | create_namespaced_stateful_set ns b =>
      with_stateful_sets st (kind_create (stateful_sets st) ns b)
  | patch_namespaced_stateful_set n ns b =>
      with_stateful_sets st (kind_patch (stateful_sets st) n ns b)
  | delete_namespaced_stateful_set n ns _ =>
      with_stateful_sets st (kind_delete (stateful_sets st) n ns)
  | createRandomPassword => (Return (VStr "correct horse battery staple"), st)
  | from_service_account_info _ => (Return (VObject "Credentials"), st)
  | get_bucket _ _ => (Return (VObject "Bucket"), st)
  | list_blobs _ _ => (Return (VBlobs (bucket_blobs st)), st)
  | download_to_filename _ _ _ => (Return VNone, st)
  | check_output _ =>
      if (mongorestore_exit st =? 0)%Z then (Return (VBytes "done"), st)
      else (Raise (CalledProcessError (mongorestore_exit st) VNone (VBytes "")), st)
  | os_remove _ => (Return VNone, st)
  end.

(** The store after a history of calls. *)
Definition after (st : Store) (history : list Call) : Store :=
  fold_left (fun st c => (step st c).2) history st.

Definition world (st : Store) : World :=
  {| respond := fun history c => (step (after st history) c).1;
     trace := []; log := [] |}.

#[export] Instance helpers : Helpers := {|
  KubernetesResources_createSecret := fun name namespace secret_data =>
    VSecret {| secret_name := py_str name; secret_namespace := py_str namespace;
               data := match secret_data with
                       | VDict d => py_str <$> d
                       | _ => ∅
                       end |};
  KubernetesResources_createService := fun cluster_object =>
    match cluster_object with
    | VCluster c =>
        VManifest "Service" (meta_name (metadata c)) (meta_namespace (metadata c))
    | _ => VNone
    end;
  MongoResources_getMemberHostname := fun pod_index name namespace =>
    name +:+ "-" +:+ pretty pod_index +:+ "." +:+ name +:+ "." +:+ namespace
    +:+ ".svc.cluster.local";
  b64decode := fun s =>
    if decide (s = "e30=") then Return "{}" else Raise (OtherError "binascii.Error");
  json_loads := fun s =>
    if decide (s = "{}") then Return (VDict ∅) else Raise (OtherError "JSONDecodeError")
|}.

(** A cluster [mongo-cluster] in namespace [default] with three replicas,
    backed up to [backup-bucket], asking for [restore_from]. *)
Definition cluster (restore_from : option string) : V1MongoClusterConfiguration :=
  {| metadata := {| meta_name := "mongo-cluster"; meta_namespace := "default" |};
     replicas := 3;
     gcs := {| bucket := "backup-bucket"; prefix := None; restore_bucket := None;
               restore_from := restore_from;
               secret_key_ref := {| ref_name := "storage-serviceaccount";
                                    ref_key := "json" |} |} |}.

Definition storage_secret : Value :=
  VSecret {| secret_name := "storage-serviceaccount"; secret_namespace := "default";
             data := {["json" := "e30="]} |}.

(** A platform that holds the storage credentials of [cluster]. *)
Definition store (blobs : list Blob) (exit : Z) : Store :=
  {| secrets := {[("default", "storage-serviceaccount") := storage_secret]};
     services := ∅; stateful_sets := ∅;
     bucket_blobs := blobs; mongorestore_exit := exit |}.

Definition event (type : string) (object : Value) : gmap string Value :=
  <["type" := VStr type]> {["object" := object]}.

(** The world after a first Added event for [cluster None] on an empty
    platform. *)
Definition added_once : World :=
  (EventManager._processEvent (event "ADDED" (VCluster (cluster None)))
     (world (store [] 0))).2.

(** The credential secret that the first Added event created. *)
Definition admin_secret : Value :=
  VSecret {| secret_name := "mongo-cluster-admin-credentials";
             secret_namespace := "default";
             data := <["password" := "correct horse battery staple"]>
                       {["username" := "root"]} |}.

(** Three artifacts, created 2021-01-01, 2021-06-01 and 2021-03-01 (UTC). *)
Definition t1 : Blob :=
  {| blob_name := "mongodb-backup-default-mongo-cluster-2021-01-01.archive.gz";
     time_created := 1609459200 |}.
Definition t2 : Blob :=
  {| blob_name := "mongodb-backup-default-mongo-cluster-2021-06-01.archive.gz";
     time_created := 1622505600 |}.
Definition t3 : Blob :=
  {| blob_name := "mongodb-backup-default-mongo-cluster-2021-03-01.archive.gz";
     time_created := 1614556800 |}.

End Platform.

(** ** Vocabulary of the statements *)

(** The world [w] after one more log record. *)
Definition logged (w : World) (r : LogRecord) : World :=
  {| respond := respond w; trace := trace w; log := log w ++ [r] |}.

(** A call that updates a network endpoint or a stateful workload. *)
Definition is_update (c : Call) : bool :=
  match c with
  | patch_namespaced_service _ _ _ | patch_namespaced_stateful_set _ _ _ => true
  | _ => false
  end.

(** A call on a secret, of any kind. *)
Definition on_secret (c : Call) : bool :=
  match c with
  | read_namespaced_secret _ _ | create_namespaced_secret _ _
  | patch_namespaced_secret _ _ _ | delete_namespaced_secret _ _ _ => true
  | _ => false
  end.

(** The calls issued between the worlds [w] and [w']. *)
Definition issued (w w' : World) (calls : list Call) : Prop :=
  trace w' = (trace w ++ calls)%list.

(** The text [part] occurs in the message [m]. *)
Definition carries (m part : string) : Prop :=
  exists before after, m = before +:+ part +:+ after.

(** The environment in which the platform cannot be reached: every request
    fails in the HTTP layer, below the API client.  The password is drawn
    in the process and needs no connection. *)
Definition unreachable : World :=
  {| respond := fun _ c =>
       match c with
       | createRandomPassword => Return (VStr "correct horse battery staple")
       | _ => Raise (OtherError "MaxRetryError")
       end;
     trace := []; log := [] |}.

(** The world in which [restore] starts its download: [w] after the line
    that announces the restore. *)
Definition announced `{Helpers} (cluster_object : V1MongoClusterConfiguration)
    (backup_file : Value) (w : World) : World :=
  logged w
    {| levelname := INFO;
       msg := "Restoring backup file %s to cluster %s @ ns/%s on %s.";
       args := [LValue backup_file;
                LValue (VStr (meta_name (metadata cluster_object)));
                LValue (VStr (meta_namespace (metadata cluster_object)));
                LValue (VStr (RestoreHelper.hostname_of cluster_object))] |}.

(** The read of the storage credentials of a cluster. *)
Definition read_credentials (cluster_object : V1MongoClusterConfiguration) : Call :=
  read_namespaced_secret
    (VStr (ref_name (secret_key_ref (gcs cluster_object))))
    (VStr (meta_namespace (metadata cluster_object))).

(** The world in which [restore] calls the executable: after the download
    of the artifact. *)
Definition downloaded `{Helpers} (cluster_object : V1MongoClusterConfiguration)
    (backup_file : Value) (w : World) : World :=
  (RestoreHelper._downloadBackup cluster_object backup_file
     (announced cluster_object backup_file w)).2.

(** ** More vocabulary *)

(** A listing of the bucket. *)
Definition is_listing (c : Call) : bool :=
  match c with
  | list_blobs _ _ => true
  | _ => false
  end.

(** The line [_lastBackupFile] logs for a blob. *)
Definition found_backup (bucket_name : Value) (blob : Blob) : LogRecord :=
  {| levelname := INFO;
     msg := "Found backup file '%s' in bucket '%s'";
     args := [LValue (VStr (blob_name blob)); LValue bucket_name] |}.

(** The line [restoreIfNeeded] logs before it calls [restore]. *)
Definition attempting (cluster_object : V1MongoClusterConfiguration)
    (backup_file : Value) : LogRecord :=
  {| levelname := INFO;
     msg := "Attempting to restore file %s to Cluster %s @ ns/%s.";
     args := [LValue backup_file;
              LValue (VStr (meta_name (metadata cluster_object)));
              LValue (VStr (meta_namespace (metadata cluster_object)))] |}.

(** The bucket and the key prefix a restore works on:
    [restore_bucket if restore_bucket else bucket] and
    [prefix or DEFAULT_BACKUP_PREFIX]. *)
Definition bucket_of (cluster_object : V1MongoClusterConfiguration) : string :=
  RestoreHelper.or_else (restore_bucket (gcs cluster_object))
    (bucket (gcs cluster_object)).

Definition prefix_of_cluster (cluster_object : V1MongoClusterConfiguration) : string :=
  RestoreHelper.or_else (prefix (gcs cluster_object))
    RestoreHelper.DEFAULT_BACKUP_PREFIX.

(** The reference platform on a host where the restore executable is not
    installed: [check_output] fails before a process exists. *)
Definition without_mongorestore (st : Platform.Store) : World :=
  {| respond := fun history c =>
       match c with
       | check_output _ => Raise (OtherError "FileNotFoundError")
       | _ => respond (Platform.world st) history c
       end;
     trace := []; log := [] |}.

(** A cluster that restores from the bucket [restores] under the prefix
    [nightly]. *)
Definition cluster_with_restore_bucket : V1MongoClusterConfiguration :=
  {| metadata := {| meta_name := "mongo-cluster"; meta_namespace := "default" |};
     replicas := 3;
     gcs := {| bucket := "backup-bucket"; prefix := Some "nightly";
               restore_bucket := Some "restores";
               restore_from := Some "latest";
               secret_key_ref := {| ref_name := "storage-serviceaccount";
                                    ref_key := "json" |} |} |}.

(** A cluster whose credentials are expected under a key that the secret of
    the reference platform does not have. *)
Definition cluster_with_wrong_key : V1MongoClusterConfiguration :=
  {| metadata := {| meta_name := "mongo-cluster"; meta_namespace := "default" |};
     replicas := 3;
     gcs := {| bucket := "backup-bucket"; prefix := None;
               restore_bucket := None;
               restore_from := Some "latest";
               secret_key_ref := {| ref_name := "storage-serviceaccount";
                                    ref_key := "key.json" |} |} |}.

(** A platform that lets the operator draw a password and refuses every
    request with 403 (forbidden). *)
Definition forbidden : World :=
  {| respond := fun _ c =>
       match c with
       | createRandomPassword => Return (VStr "correct horse battery staple")
       | _ => Raise (ApiException 403)
       end;
     trace := []; log := [] |}.

(** A platform on which the secret is deleted between the conflict and the
    read: the creation answers 409 and the read 404. *)
Definition racing : World :=
  {| respond := fun _ c =>
       match c with
       | createRandomPassword => Return (VStr "correct horse battery staple")
       | create_namespaced_secret _ _ => Raise (ApiException 409)
       | read_namespaced_secret _ _ => Raise (ApiException 404)
       | _ => Return VNone
       end;
     trace := []; log := [] |}.

(** ** Rendering of a log record

    [logging] renders a record that was handed arguments as [msg % args],
    when a handler emits it.  [percent_format] is this operator for
    conversions without flags, with every argument inserted as its text (the
    sources use [%s] only); a failure of it is reported on standard error by
    the logging module and the record is not written. *)

(** The character [%]. *)
Definition percent : Ascii.ascii := Ascii.ascii_of_nat 37.

(** A conversion type of the [%] operator. *)
Definition is_conversion (c : Ascii.ascii) : bool :=
  bool_decide (c ∈ String.list_ascii_of_string "diouxXeEfFgGcrsa").

Definition prepend (s : string) (o : Outcome string) : Outcome string :=
  match o with
  | Return t => Return (s +:+ t)
  | Raise e => Raise e
  end.

Fixpoint percent_format (msg : string) (args : list string) : Outcome string :=
  match msg with
  | EmptyString =>
      match args with
      | [] => Return ""
      | _ :: _ =>
          Raise (TypeError "not all arguments converted during string formatting")
      end
  | String c msg' =>
      if Ascii.eqb c percent then
        match msg' with
        | EmptyString => Raise (OtherError "ValueError")
        | String d msg'' =>
            if Ascii.eqb d percent then prepend "%" (percent_format msg'' args)
            else if is_conversion d then
              match args with
              | a :: args' => prepend a (percent_format msg'' args')
              | [] => Raise (TypeError "not enough arguments for format string")
              end
            else Raise (OtherError "ValueError")
        end
      else prepend (String c "") (percent_format msg' args)
  end.

(** The text of an argument of a log record. *)
Definition log_arg_str (a : LogArg) : string :=
  match a with
  | LValue v => py_str v
  | LEvent _ => "{...}"
  | LExc (ApiException status) => "(" +:+ pretty status +:+ ")"
  | LExc _ => "<exception>"
  end.

(** [LogRecord.getMessage] for a record whose values were handed over as
    arguments of the logging call. *)
Definition getMessage (r : LogRecord) : Outcome string :=
  match args r with
  | [] => Return (msg r)
  | _ :: _ => percent_format (msg r) (log_arg_str <$> args r)
  end.

(** * Properties *)

(** ** Event handling *)

Section EventProperties.
Context `{Helpers}.
Import KubernetesService EventManager.

Lemma in_EventTypes_str (s : string) :
  in_EventTypes (VStr s) = true <-> s ∈ EventTypes_members.
Proof. unfold in_EventTypes. apply bool_decide_eq_true. Qed.

Lemma action_of_type (s : string) :
  s ∈ EventTypes_members ->
  (s = "ADDED" /\ event_type_to_action_map !! s = Some _add) \/
  (s = "MODIFIED" /\ event_type_to_action_map !! s = Some _update) \/
  (s = "DELETED" /\ event_type_to_action_map !! s = Some _delete).
Proof.
  unfold EventTypes_members. rewrite !elem_of_cons, elem_of_nil.
  intros [-> | [-> | [-> | []]]]; [left | right; left | right; right];
    split; reflexivity.
Qed.

(** What [_processEvent] does with an event that reaches the dispatcher, in
    terms of the outcome of the handler. *)
Lemma processEvent_dispatch (event : gmap string Value) (s : string)
    (object : Value) (action : Value -> M Value) (w : World) :
  event !! "type" = Some (VStr s) ->
  event !! "object" = Some object ->
  event_type_to_action_map !! s = Some action ->
  _processEvent event w =
    match action object w with
    | (Return v, w') => (Return v, w')
    | (Raise (ApiException status), w') =>
        (Return VNone,
         logged w' {| levelname := ERROR;
                      msg := "API error with {} object {}: {}";
                      args := [LValue (VStr s); LValue object;
                               LExc (ApiException status)] |})
    | (Raise e, w') => (Raise e, w')
    end.
Proof.
  intros Htype Hobject Haction.
  assert (Hin : in_EventTypes (VStr s) = true).
  { apply in_EventTypes_str.
    destruct (decide (s ∈ EventTypes_members)) as [|Hn]; [assumption|].
    exfalso. revert Haction. unfold event_type_to_action_map.
    rewrite !lookup_insert_ne, lookup_singleton_ne; [discriminate | | |];
      intros <-; apply Hn; unfold EventTypes_members; set_solver. }
  unfold _processEvent. rewrite Htype, Hobject, Hin. simpl.
  rewrite Haction. unfold try_except.
  destruct (action object w) as [[v | e] w']; [reflexivity|].
  destruct e; reflexivity.
Qed.

(** C5: an event without a type or without an object, or whose type string
    is none of ADDED, MODIFIED and DELETED, is dropped: [_processEvent]
    returns normally, issues no call at all and logs one warning. *)
Theorem processEvent_drops_malformed_and_unknown
    (event : gmap string Value) (w : World) :
  event !! "type" = None \/ event !! "object" = None \/
  (exists s, event !! "type" = Some (VStr s) /\ s ∉ EventTypes_members) ->
  exists record,
    _processEvent event w = (Return VNone, logged w record) /\
    trace (logged w record) = trace w /\
    levelname record = WARNING.
Proof.
  intros [Htype | [Hobject | (s & Htype & Hs)]]; unfold _processEvent.
  - rewrite Htype. eexists. split; [reflexivity | split; reflexivity].
  - rewrite Hobject. destruct (event !! "type");
      eexists; (split; [reflexivity | split; reflexivity]).
  - rewrite Htype.
    destruct (event !! "object");
      [| eexists; (split; [reflexivity | split; reflexivity])].
    assert (Hin : in_EventTypes (VStr s) = false).
    { unfold in_EventTypes. apply bool_decide_eq_false. exact Hs. }
    rewrite Hin. eexists. split; [reflexivity | split; reflexivity].
Qed.

(** C2: the handler of a Deleted event calls [deleteStatefulSet] with the
    cluster object alone, while the method takes a name and a namespace: the
    call raises [TypeError] before any operation is issued, so none of the
    three deletions happens and the handler does not complete. *)
Theorem delete_raises_before_any_operation (cluster_object : Value) (w : World) :
  _delete cluster_object w =
    (Raise (arity_error "deleteStatefulSet" ["name"; "namespace"] 1), w).
Proof. reflexivity. Qed.

(** C6: handling a Modified event issues nothing but updates of the network
    endpoint and of the stateful workload, at most one of each and in this
    order; no call of any kind is made on a secret. *)
Theorem modified_updates_service_and_stateful_set_only
    (event : gmap string Value) (object : Value) (w : World) :
  event !! "type" = Some (VStr "MODIFIED") ->
  event !! "object" = Some object ->
  exists calls,
    issued w (_processEvent event w).2 calls /\
    Forall (fun c => is_update c = true /\ on_secret c = false) calls /\
    (forall c, object = VCluster c ->
       let name := VStr (meta_name (metadata c)) in
       let namespace := VStr (meta_namespace (metadata c)) in
       let body := KubernetesResources_createService object in
       calls `prefix_of` [patch_namespaced_service name namespace body;
                          patch_namespaced_stateful_set name namespace body]).
Proof.
  intros Htype Hobject.
  rewrite (processEvent_dispatch event "MODIFIED" object _update w
             Htype Hobject eq_refl).
  unfold issued.
  destruct object as [| | | | |c| | | |];
    try (exists []; simpl; rewrite app_nil_r;
         split; [reflexivity | split; [constructor | discriminate]]).
  unfold _update, updateService, updateStatefulSet, def1, bind, call, get_metadata,
    ret. simpl.
  destruct (respond w (trace w) _) as [v1 | e1]; simpl.
  - destruct (respond w _ _) as [v2 | e2]; simpl.
    + eexists. split; [rewrite <- app_assoc; reflexivity |].
      split; [repeat constructor |].
      intros c' [= <-]. simpl. reflexivity.
    + eexists [_; _].
      split; [destruct e2; simpl; rewrite <- app_assoc; reflexivity |].
      split; [repeat constructor |].
      intros c' [= <-]. simpl. reflexivity.
  - eexists [_].
    split; [destruct e1; simpl; reflexivity |].
    split; [repeat constructor |].
    intros c' [= <-]. simpl. eexists [_]. reflexivity.
Qed.

(** When the handler of an Added or Modified event fails with an API
    error, [_processEvent] catches it, hands the event type, the object and
    the error to [logging.exception], and returns normally. *)
Theorem processEvent_catches_api_errors
    (event : gmap string Value) (s : string) (object : Value)
    (action : Value -> M Value) (status : Z) (w w' : World) :
  s = "ADDED" \/ s = "MODIFIED" ->
  event !! "type" = Some (VStr s) ->
  event !! "object" = Some object ->
  event_type_to_action_map !! s = Some action ->
  action object w = (Raise (ApiException status), w') ->
  _processEvent event w =
    (Return VNone,
     logged w' {| levelname := ERROR;
                  msg := "API error with {} object {}: {}";
                  args := [LValue (VStr s); LValue object;
                           LExc (ApiException status)] |}).
Proof.
  intros _ Htype Hobject Haction Hraise.
  rewrite (processEvent_dispatch event s object action w Htype Hobject Haction).
  rewrite Hraise. reflexivity.
Qed.

(** C8, as the code has it: when the handler of an event that reaches the
    dispatcher fails with an API error, the error is caught inside
    [_processEvent], which returns normally and issues no further call: the
    API error does not leave the event processor. *)
Theorem processEvent_returns_after_api_error
    (event : gmap string Value) (s : string) (object : Value)
    (action : Value -> M Value) (status : Z) (w w' : World) :
  event !! "type" = Some (VStr s) ->
  event !! "object" = Some object ->
  event_type_to_action_map !! s = Some action ->
  action object w = (Raise (ApiException status), w') ->
  (_processEvent event w).1 = Return VNone /\
  trace (_processEvent event w).2 = trace w'.
Proof.
  intros Htype Hobject Haction Hraise.
  rewrite (processEvent_dispatch event s object action w Htype Hobject Haction).
  rewrite Hraise. split; reflexivity.
Qed.

(** A failure that is not an API error leaves [_processEvent] as it left
    the handler. *)
Lemma processEvent_propagates_other_errors
    (event : gmap string Value) (s : string) (object : Value)
    (action : Value -> M Value) (e : PyExc) (w w' : World) :
  event !! "type" = Some (VStr s) ->
  event !! "object" = Some object ->
  event_type_to_action_map !! s = Some action ->
  action object w = (Raise e, w') ->
  (forall status, e <> ApiException status) ->
  _processEvent event w = (Raise e, w').
Proof.
  intros Htype Hobject Haction Hraise Hother.
  rewrite (processEvent_dispatch event s object action w Htype Hobject Haction).
  rewrite Hraise. destruct e; try reflexivity.
  exfalso. eapply Hother. reflexivity.
Qed.

(** The [TypeError] of the Deleted handler is no API error: it leaves the
    event processor, and nothing is logged. *)
Lemma processEvent_deleted_raises
    (event : gmap string Value) (object : Value) (w : World) :
  event !! "type" = Some (VStr "DELETED") ->
  event !! "object" = Some object ->
  _processEvent event w =
    (Raise (arity_error "deleteStatefulSet" ["name"; "namespace"] 1), w).
Proof.
  intros Htype Hobject.
  rewrite (processEvent_dispatch event "DELETED" object _delete w
             Htype Hobject eq_refl).
  reflexivity.
Qed.

End EventProperties.

(** ** Resource operations *)

Section ServiceProperties.
Context `{Helpers}.
Import KubernetesService.

(** C10: the body sent when the stateful workload is created or updated is
    the body [KubernetesResources.createService] builds, the one sent when
    the network endpoint is created or updated. *)
Theorem stateful_set_body_is_service_body
    (c : V1MongoClusterConfiguration) (w : World) :
  let cluster_object := VCluster c in
  let name := VStr (meta_name (metadata c)) in
  let namespace := VStr (meta_namespace (metadata c)) in
  let body := KubernetesResources_createService cluster_object in
  issued w (createService [cluster_object] w).2
    [create_namespaced_service namespace body] /\
  issued w (createStatefulSet [cluster_object] w).2
    [create_namespaced_stateful_set namespace body] /\
  issued w (updateService [cluster_object] w).2
    [patch_namespaced_service name namespace body] /\
  issued w (updateStatefulSet [cluster_object] w).2
    [patch_namespaced_stateful_set name namespace body].
Proof. repeat split. Qed.

(** C4: when the platform answers the creation of the credential secret
    with a conflict (409) and holds a secret under that name, as it does
    after a first Added event, [createOperatorAdminSecret] does not raise:
    it reads the existing secret and returns it. *)
Theorem createOperatorAdminSecret_returns_existing
    (c : V1MongoClusterConfiguration) (w : World) (password existing : Value) :
  let name := VStr (OPERATOR_ADMIN_SECRET_FORMAT (meta_name (metadata c))) in
  let namespace := VStr (meta_namespace (metadata c)) in
  let secret_data :=
    VDict (<["password" := password]> {["username" := VStr "root"]}) in
  let create :=
    create_namespaced_secret namespace
      (KubernetesResources_createSecret name namespace secret_data) in
  let read := read_namespaced_secret name namespace in
  respond w (trace w) createRandomPassword = Return password ->
  respond w (trace w ++ [createRandomPassword])%list create
    = Raise (ApiException 409) ->
  respond w (trace w ++ [createRandomPassword; create])%list read
    = Return existing ->
  exists w',
    createOperatorAdminSecret [VCluster c] w = (Return existing, w') /\
    issued w w' [createRandomPassword; create; read].
Proof.
  intros name namespace secret_data create read Hpassword Hcreate Hread.
  unfold createOperatorAdminSecret, createSecret, getSecret, def1, def2, def3,
    try_except, bind, call, logging, get_metadata, ret, issued.
  simpl. rewrite Hpassword. simpl.
  fold name namespace. fold secret_data. fold create.
  rewrite Hcreate. simpl.
  replace ((trace w ++ [createRandomPassword]) ++ [create])%list
    with (trace w ++ [createRandomPassword; create])%list
    by (rewrite <- app_assoc; reflexivity).
  fold read. rewrite Hread.
  eexists. split; [reflexivity |].
  simpl. rewrite <- app_assoc. reflexivity.
Qed.

End ServiceProperties.

(** ** Restore *)

Section RestoreProperties.
Context `{Helpers}.
Import KubernetesService RestoreHelper.

Lemma append_assoc (a b c : string) : (a +:+ b) +:+ c = a +:+ b +:+ c.
Proof.
  induction a as [| x a IH]; [reflexivity |].
  change (String x ((a +:+ b) +:+ c) = String x (a +:+ b +:+ c)).
  f_equal. exact IH.
Qed.

Lemma carries_here (before part after : string) :
  carries (before +:+ part +:+ after) part.
Proof. exists before, after. reflexivity. Qed.

Lemma carries_after (a m part : string) : carries m part -> carries (a +:+ m) part.
Proof.
  intros (before & after & ->). exists (a +:+ before), after.
  symmetry. apply append_assoc.
Qed.

(** The loop of [_lastBackupFile] computes a left fold of [elect]; it logs,
    and issues no call. *)
Lemma for_blobs_fold (bucket_name : Value) (blobs : list Blob)
    (last_blob : option Blob) (w : World) :
  exists w',
    for_blobs bucket_name blobs last_blob w
      = (Return (fold_left elect blobs last_blob), w') /\
    trace w' = trace w /\ respond w' = respond w.
Proof.
  revert last_blob w.
  induction blobs as [| blob blobs IH]; intros last_blob w; simpl.
  - exists w. repeat split.
  - unfold bind, logging.
    destruct (IH (elect last_blob blob)
                (logged w {| levelname := INFO;
                             msg := "Found backup file '%s' in bucket '%s'";
                             args := [LValue (VStr (blob_name blob));
                                      LValue bucket_name] |}))
      as (w' & Heq & Htrace & Hrespond).
    exists w'. unfold logged in Heq. rewrite Heq. repeat split; assumption.
Qed.

(** From a current maximum [last], the fold keeps [last] unless a later
    blob is strictly newer; the blob it ends on is the first of the newest
    ones. *)
Lemma fold_elect_from (blobs : list Blob) (last : Blob) :
  exists latest,
    fold_left elect blobs (Some last) = Some latest /\
    ((latest = last /\
      forall b, b ∈ blobs -> (time_created b <= time_created last)%Z) \/
     (exists before after,
        blobs = (before ++ latest :: after)%list /\
        (time_created last < time_created latest)%Z /\
        (forall b, b ∈ before -> (time_created b < time_created latest)%Z) /\
        (forall b, b ∈ after -> (time_created b <= time_created latest)%Z))).
Proof.
  revert last.
  induction blobs as [| x blobs IH]; intros last; simpl.
  - exists last. split; [reflexivity |]. left. split; [reflexivity |].
    intros b Hb. inversion Hb.
  - destruct (Z.gtb_spec (time_created x) (time_created last)) as [Hgt | Hle].
    + destruct (IH x) as (latest & Hfold & Hcase).
      exists latest. split; [exact Hfold |]. right.
      destruct Hcase as [[-> Hall] | (before & after & -> & Hlt & Hbefore & Hafter)].
      * exists [], blobs. repeat split; try assumption; try lia.
        intros b Hb. inversion Hb.
      * exists (x :: before), after. repeat split; try assumption; try lia.
        intros b Hb. apply elem_of_cons in Hb as [-> | Hb]; [lia | auto].
    + destruct (IH last) as (latest & Hfold & Hcase).
      exists latest. split; [exact Hfold |].
      destruct Hcase as [[-> Hall] | (before & after & -> & Hlt & Hbefore & Hafter)].
      * left. split; [reflexivity |].
        intros b Hb. apply elem_of_cons in Hb as [-> | Hb]; [lia | auto].
      * right. exists (x :: before), after. repeat split; try assumption.
        intros b Hb. apply elem_of_cons in Hb as [-> | Hb]; [lia | auto].
Qed.

(** Over a listing that is not empty, the loop of [_lastBackupFile] ends on
    a blob of the listing whose creation time is maximal, and on the first
    such blob: every blob before it is strictly older, every blob after it
    is older or of the same age. *)
Theorem lastBackupFile_elects_first_newest
    (bucket_name : Value) (blobs : list Blob) (w : World) :
  blobs <> [] ->
  exists before latest after w',
    blobs = (before ++ latest :: after)%list /\
    for_blobs bucket_name blobs None w = (Return (Some latest), w') /\
    name_of (Some latest) = VStr (blob_name latest) /\
    (forall b, b ∈ before -> (time_created b < time_created latest)%Z) /\
    (forall b, b ∈ after -> (time_created b <= time_created latest)%Z).
Proof.
  intros Hne. destruct blobs as [| first blobs]; [congruence |].
  destruct (for_blobs_fold bucket_name (first :: blobs) None w)
    as (w' & Heq & _ & _).
  simpl in Heq.
  destruct (fold_elect_from blobs first) as (latest & Hfold & Hcase).
  rewrite Hfold in Heq.
  destruct Hcase as [[-> Hall] | (before & after & -> & Hlt & Hbefore & Hafter)].
  - exists [], first, blobs, w'. repeat split; try assumption.
    intros b Hb. inversion Hb.
  - exists (first :: before), latest, after, w'. repeat split; try assumption.
    intros b Hb. apply elem_of_cons in Hb as [-> | Hb]; [lia | auto].
Qed.

(** What [_lastBackupFile] returns when the storage client answers its
    calls: the name of the blob the fold ends on, or [None] over an empty
    listing. *)
Lemma lastBackupFile_returns (credentials bucket_name : Value) (key : string)
    (w : World) (account bucket_object : Value) (blobs : list Blob) :
  let c1 := from_service_account_info credentials in
  let c2 := get_bucket account bucket_name in
  let c3 := list_blobs bucket_object key in
  respond w (trace w) c1 = Return account ->
  respond w (trace w ++ [c1])%list c2 = Return bucket_object ->
  respond w ((trace w ++ [c1]) ++ [c2])%list c3 = Return (VBlobs blobs) ->
  exists w',
    _lastBackupFile credentials bucket_name key w
      = (Return (name_of (fold_left elect blobs None)), w') /\
    issued w w' [c1; c2; c3].
Proof.
  intros c1 c2 c3 H1 H2 H3.
  unfold _lastBackupFile, bind, call. simpl.
  fold c1. rewrite H1. simpl. fold c2. rewrite H2. simpl. fold c3. rewrite H3.
  match goal with
  | |- context [for_blobs bucket_name blobs None ?w0] =>
      destruct (for_blobs_fold bucket_name blobs None w0)
        as (w' & Heq & Htrace & _); rewrite Heq
  end.
  exists w'. split; [reflexivity |].
  unfold issued. rewrite Htrace. simpl. rewrite <- !app_assoc. reflexivity.
Qed.

(** C7: when the storage client answers with a listing that is not empty,
    [_lastBackupFile] returns the name of a blob of the listing whose
    creation time is maximal, and of the first such blob: every blob listed
    before it is strictly older, every blob listed after it is older or of
    the same age. *)
Theorem lastBackupFile_returns_first_newest
    (credentials bucket_name : Value) (key : string) (w : World)
    (account bucket_object : Value) (blobs : list Blob) :
  let c1 := from_service_account_info credentials in
  let c2 := get_bucket account bucket_name in
  let c3 := list_blobs bucket_object key in
  respond w (trace w) c1 = Return account ->
  respond w (trace w ++ [c1])%list c2 = Return bucket_object ->
  respond w ((trace w ++ [c1]) ++ [c2])%list c3 = Return (VBlobs blobs) ->
  blobs <> [] ->
  exists before latest after w',
    blobs = (before ++ latest :: after)%list /\
    _lastBackupFile credentials bucket_name key w
      = (Return (VStr (blob_name latest)), w') /\
    issued w w' [c1; c2; c3] /\
    (forall b, b ∈ before -> (time_created b < time_created latest)%Z) /\
    (forall b, b ∈ after -> (time_created b <= time_created latest)%Z).
Proof.
  intros c1 c2 c3 H1 H2 H3 Hne.
  destruct (lastBackupFile_returns credentials bucket_name key w account
              bucket_object blobs H1 H2 H3) as (w' & Heq & Hcalls).
  destruct blobs as [| first blobs]; [congruence |].
  simpl in Heq.
  destruct (fold_elect_from blobs first) as (latest & Hfold & Hcase).
  rewrite Hfold in Heq. simpl in Heq.
  destruct Hcase as [[-> Hall] | (before & after & -> & Hlt & Hbefore & Hafter)].
  - exists [], first, blobs, w'. repeat split; try assumption.
    intros b Hb. inversion Hb.
  - exists (first :: before), latest, after, w'. repeat split; try assumption.
    intros b Hb. apply elem_of_cons in Hb as [-> | Hb]; [lia | auto].
Qed.

(** [restore] after a download that succeeded, when the executable exits
    with a code that is not zero. *)
Lemma restore_nonzero_exit (c : V1MongoClusterConfiguration) (backup_file : Value)
    (w w1 : World) (file : string) (returncode : Z) (stderr stdout : Value) :
  _downloadBackup c backup_file (announced c backup_file w) = (Return file, w1) ->
  respond w1 (trace w1) (mongorestore (hostname_of c) file)
    = Raise (CalledProcessError returncode stderr stdout) ->
  restore c backup_file w =
    (Raise (SubprocessError
              (restore_error_message backup_file (hostname_of c)
                 returncode stderr stdout)),
     {| respond := respond w1;
        trace := trace w1 ++ [mongorestore (hostname_of c) file];
        log := log w1 |}).
Proof.
  intros Hdownload Hexit.
  unfold announced, logged in Hdownload.
  unfold restore, bind, logging, try_except, call.
  rewrite Hdownload, Hexit. reflexivity.
Qed.

(** [restore] after a download that succeeded, when the executable exits
    with code zero: the scratch file is removed next. *)
Lemma restore_zero_exit (c : V1MongoClusterConfiguration) (backup_file : Value)
    (w w1 : World) (file : string) (output removed : Value) :
  _downloadBackup c backup_file (announced c backup_file w) = (Return file, w1) ->
  respond w1 (trace w1) (mongorestore (hostname_of c) file) = Return output ->
  respond w1 (trace w1 ++ [mongorestore (hostname_of c) file])%list (os_remove file)
    = Return removed ->
  exists w2,
    restore c backup_file w = (Return VNone, w2) /\
    issued w1 w2 [mongorestore (hostname_of c) file; os_remove file].
Proof.
  intros Hdownload Hexit Hremove.
  unfold announced, logged in Hdownload.
  unfold restore, bind, logging, try_except, call, ret.
  rewrite Hdownload, Hexit. simpl. rewrite Hremove.
  eexists. split; [reflexivity |].
  unfold issued. simpl. rewrite <- app_assoc. reflexivity.
Qed.

(** When the restore executable exits with a code that is not zero,
    [restore] raises [SubprocessError]; its message carries the name of the
    artifact, the host name of the target member, the exit code, and the
    [stderr] and [stdout] attributes of the [CalledProcessError]. *)
Theorem restore_failure_is_explicit (c : V1MongoClusterConfiguration)
    (backup_file : Value) (w w1 : World) (file : string) (returncode : Z)
    (stderr stdout : Value) :
  _downloadBackup c backup_file (announced c backup_file w) = (Return file, w1) ->
  respond w1 (trace w1) (mongorestore (hostname_of c) file)
    = Raise (CalledProcessError returncode stderr stdout) ->
  exists message w2,
    restore c backup_file w = (Raise (SubprocessError message), w2) /\
    carries message (py_str backup_file) /\
    carries message (hostname_of c) /\
    carries message (pretty returncode) /\
    carries message (py_str stderr) /\
    carries message (py_str stdout).
Proof.
  intros Hdownload Hexit.
  rewrite (restore_nonzero_exit c backup_file w w1 file returncode stderr stdout
             Hdownload Hexit).
  eexists _, _. split; [reflexivity |].
  unfold restore_error_message. change (py_str (VInt returncode)) with (pretty returncode).
  repeat split.
  - apply carries_here.
  - do 2 apply carries_after. apply carries_here.
  - do 4 apply carries_after. apply carries_here.
  - do 7 apply carries_after. apply carries_here.
  - do 11 apply carries_after. apply carries_here.
Qed.

(** C9: [check_output] is called without [stderr=], so the standard error
    of the executable is not captured and the [CalledProcessError] has
    [None] for it.  The [SubprocessError] that [restore] raises then reads
    [stderr: 'None'] whatever the executable wrote: the name of the
    artifact, the host name, the exit code and the standard output are in
    the message, the standard error is not. *)
Theorem restore_failure_message_lacks_stderr (c : V1MongoClusterConfiguration)
    (backup_file : Value) (w w1 : World) (file : string) (returncode : Z)
    (stdout : Value) :
  _downloadBackup c backup_file (announced c backup_file w) = (Return file, w1) ->
  respond w1 (trace w1) (mongorestore (hostname_of c) file)
    = Raise (CalledProcessError returncode VNone stdout) ->
  (restore c backup_file w).1 =
    Raise (SubprocessError
             ("Could not restore '" +:+ py_str backup_file +:+ "' to '"
              +:+ hostname_of c +:+ "'. Return code: " +:+ pretty returncode
              +:+ newline +:+ " stderr: 'None'" +:+ newline
              +:+ " stdout: '" +:+ py_str stdout +:+ "'")).
Proof.
  intros Hdownload Hexit.
  rewrite (restore_nonzero_exit c backup_file w w1 file returncode VNone stdout
             Hdownload Hexit).
  reflexivity.
Qed.

(** C3, on the failing path: when the restore executable exits with a code
    that is not zero, [restore] raises and the call of the executable is the
    last one it issues; [os.remove] is not reached and the scratch file
    stays. *)
Theorem restore_failure_keeps_scratch_file (c : V1MongoClusterConfiguration)
    (backup_file : Value) (w w1 : World) (file : string) (returncode : Z)
    (stderr stdout : Value) :
  _downloadBackup c backup_file (announced c backup_file w) = (Return file, w1) ->
  respond w1 (trace w1) (mongorestore (hostname_of c) file)
    = Raise (CalledProcessError returncode stderr stdout) ->
  exists e w2,
    restore c backup_file w = (Raise e, w2) /\
    issued w1 w2 [mongorestore (hostname_of c) file] /\
    os_remove file ∉ [mongorestore (hostname_of c) file].
Proof.
  intros Hdownload Hexit.
  rewrite (restore_nonzero_exit c backup_file w w1 file returncode stderr stdout
             Hdownload Hexit).
  eexists _, _. split; [reflexivity |]. split; [reflexivity |].
  intros Hin. apply list_elem_of_singleton in Hin. discriminate Hin.
Qed.

(** Without an artifact there is nothing to download: [_downloadBackup]
    reads the storage credentials and raises, at the latest when it builds
    the name of the scratch file. *)
Lemma downloadBackup_of_None (c : V1MongoClusterConfiguration) (w : World) :
  exists e w',
    _downloadBackup c VNone w = (Raise e, w') /\
    issued w w' [read_credentials c].
Proof.
  unfold _downloadBackup, _getCredentials, getSecret, def2, bind, call, lift,
    str_add, raise, ret, issued, read_credentials.
  simpl.
  destruct (respond w (trace w) _) as [secret | e]; simpl;
    [| eexists _, _; split; reflexivity].
  destruct secret; simpl; try (eexists _, _; split; reflexivity).
  destruct (data s !! _); simpl; [| eexists _, _; split; reflexivity].
  destruct (b64decode _); simpl; [| eexists _, _; split; reflexivity].
  destruct (json_loads _); simpl; eexists _, _; split; reflexivity.
Qed.

(** So [restore] with no artifact raises, after the read of the
    credentials and nothing else. *)
Lemma restore_of_None (c : V1MongoClusterConfiguration) (w : World) :
  exists e w',
    restore c VNone w = (Raise e, w') /\
    issued w w' [read_credentials c].
Proof.
  destruct (downloadBackup_of_None c (announced c VNone w))
    as (e & w' & Heq & Hcalls).
  exists e, w'. split; [| exact Hcalls].
  unfold announced, logged in Heq.
  unfold restore, bind, logging. rewrite Heq. reflexivity.
Qed.

(** C1, as the code has it: when the restore source is [latest] and the
    lookup resolves to no artifact, [restoreIfNeeded] does not return: it
    calls [restore] with [None], which reads the storage credentials and
    raises.  Neither the download nor the restore executable is reached. *)
Theorem restoreIfNeeded_latest_without_artifact (c : V1MongoClusterConfiguration)
    (w w1 : World) :
  restore_from (gcs c) = Some "latest" ->
  getLastBackup c w = (Return VNone, w1) ->
  exists e w2,
    restoreIfNeeded c w = (Raise e, w2) /\
    issued w1 w2 [read_credentials c].
Proof.
  intros Hsource Hlookup.
  destruct (restore_of_None c
              (logged w1
                 {| levelname := INFO;
                    msg := "Attempting to restore file %s to Cluster %s @ ns/%s.";
                    args := [LValue VNone;
                             LValue (VStr (meta_name (metadata c)));
                             LValue (VStr (meta_namespace (metadata c)))] |}))
    as (e & w2 & Heq & Hcalls).
  exists e, w2. split; [| exact Hcalls].
  unfold restoreIfNeeded. rewrite Hsource.
  destruct (decide ("latest" = "latest")) as [_ | Hne]; [| congruence].
  unfold logged in Heq. unfold bind, logging.
  rewrite Hlookup, Heq. reflexivity.
Qed.

End RestoreProperties.

(** ** The code on the reference platform *)

Section OnThePlatform.
Import KubernetesService EventManager RestoreHelper Platform.

(** A run is known by its outcome and the world it leaves. *)
Lemma run_eq {A} (m : M A) (w : World) (o : Outcome A) :
  (m w).1 = o -> m w = (o, (m w).2).
Proof. intros <-. destruct (m w); reflexivity. Qed.

(** An event of a type the operator does not know is dropped. *)
Lemma processEvent_drops_bookmark :
  exists record,
    _processEvent (event "BOOKMARK" (VCluster (cluster None))) (world (store [] 0))
      = (Return VNone, logged (world (store [] 0)) record) /\
    trace (logged (world (store [] 0)) record) = trace (world (store [] 0)) /\
    levelname record = WARNING.
Proof.
  apply processEvent_drops_malformed_and_unknown.
  right. right. exists "BOOKMARK". split; [reflexivity |].
  apply (bool_decide_unpack _). vm_compute. exact I.
Defined.

(** A Modified event for a cluster whose service does not exist. *)
Lemma modified_on_empty_platform :
  exists calls,
    issued (world (store [] 0))
      (_processEvent (event "MODIFIED" (VCluster (cluster None)))
         (world (store [] 0))).2 calls /\
    Forall (fun c => is_update c = true /\ on_secret c = false) calls /\
    (forall c, VCluster (cluster None) = VCluster c ->
       let name := VStr (meta_name (metadata c)) in
       let namespace := VStr (meta_namespace (metadata c)) in
       let body := KubernetesResources_createService (VCluster (cluster None)) in
       calls `prefix_of` [patch_namespaced_service name namespace body;
                          patch_namespaced_stateful_set name namespace body]).
Proof.
  apply modified_updates_service_and_stateful_set_only; reflexivity.
Defined.

(** The platform answers the update of a service that does not exist with
    404; the event processor logs the error and returns. *)
Lemma modified_on_empty_platform_is_logged :
  _processEvent (event "MODIFIED" (VCluster (cluster None))) (world (store [] 0))
    = (Return VNone,
       logged (_update (VCluster (cluster None)) (world (store [] 0))).2
         {| levelname := ERROR;
            msg := "API error with {} object {}: {}";
            args := [LValue (VStr "MODIFIED");
                     LValue (VCluster (cluster None));
                     LExc (ApiException 404)] |}).
Proof.
  apply (processEvent_catches_api_errors
           (event "MODIFIED" (VCluster (cluster None))) "MODIFIED"
           (VCluster (cluster None)) _update 404 (world (store [] 0)));
    [right; reflexivity | reflexivity | reflexivity | reflexivity |].
  apply run_eq. vm_compute. reflexivity.
Defined.

(** C8, as the claim states it, fails.  On a platform that cannot be
    reached, the creation of the credential secret of an Added event fails
    below the API client: this failure of a resource operation is no API
    error and leaves the event processor.  And when the creation fails with
    an API error (403), the record handed to [logging.exception] has a
    template without any conversion and three arguments, so that rendering
    it fails and no line with the event type and the object is written. *)
Lemma processEvent_lets_failures_out :
  (let run := _processEvent (event "ADDED" (VCluster (cluster None))) unreachable in
   run.1 = Raise (OtherError "MaxRetryError") /\
   trace run.2 =
     [createRandomPassword;
      create_namespaced_secret (VStr "default") admin_secret]) /\
  (let run := _processEvent (event "ADDED" (VCluster (cluster None))) forbidden in
   exists record,
     log run.2 = [record] /\
     msg record = "API error with {} object {}: {}" /\
     length (args record) = 3%nat /\
     getMessage record
       = Raise (TypeError "not all arguments converted during string formatting")).
Proof.
  split.
  - split; vm_compute; reflexivity.
  - eexists. split; [vm_compute; reflexivity |].
    split; [reflexivity |]. split; [reflexivity |]. vm_compute. reflexivity.
Qed.

(** The witness of the claim as amended: the update of a service that does
    not exist answers 404, and the event processor returns. *)
Lemma modified_on_empty_platform_returns :
  (_processEvent (event "MODIFIED" (VCluster (cluster None))) (world (store [] 0))).1
    = Return VNone /\
  trace (_processEvent (event "MODIFIED" (VCluster (cluster None)))
           (world (store [] 0))).2
    = trace (_update (VCluster (cluster None)) (world (store [] 0))).2.
Proof.
  apply (processEvent_returns_after_api_error
           (event "MODIFIED" (VCluster (cluster None))) "MODIFIED"
           (VCluster (cluster None)) _update 404 (world (store [] 0)));
    [reflexivity | reflexivity | reflexivity |].
  apply run_eq. vm_compute. reflexivity.
Defined.

(** The Deleted event on the platform: no deletion is issued. *)
Lemma deleted_issues_nothing :
  _processEvent (event "DELETED" (VCluster (cluster None))) (world (store [] 0))
    = (Raise (arity_error "deleteStatefulSet" ["name"; "namespace"] 1),
       world (store [] 0)).
Proof.
  apply (processEvent_deleted_raises _ (VCluster (cluster None))); reflexivity.
Defined.

(** A second Added event: the creation of the credential secret answers
    409, and the secret of the first event is read and returned. *)
Lemma second_added_returns_first_secret :
  exists w',
    createOperatorAdminSecret [VCluster (cluster None)] added_once
      = (Return admin_secret, w') /\
    issued added_once w'
      [createRandomPassword;
       create_namespaced_secret (VStr (meta_namespace (metadata (cluster None))))
         (KubernetesResources_createSecret
            (VStr (OPERATOR_ADMIN_SECRET_FORMAT (meta_name (metadata (cluster None)))))
            (VStr (meta_namespace (metadata (cluster None))))
            (VDict (<["password" := VStr "correct horse battery staple"]>
                      {["username" := VStr "root"]})));
       read_namespaced_secret
         (VStr (OPERATOR_ADMIN_SECRET_FORMAT (meta_name (metadata (cluster None)))))
         (VStr (meta_namespace (metadata (cluster None))))].
Proof.
  apply (createOperatorAdminSecret_returns_existing (cluster None) added_once
           (VStr "correct horse battery staple") admin_secret);
    vm_compute; reflexivity.
Defined.

(** Over the listing [t1; t2; t3] of the reference platform. *)
Lemma lastBackupFile_of_three_artifacts :
  exists before latest after w',
    [t1; t2; t3] = (before ++ latest :: after)%list /\
    _lastBackupFile (VDict ∅) (VStr "backup-bucket") "backups/"
      (world (store [t1; t2; t3] 0))
      = (Return (VStr (blob_name latest)), w') /\
    issued (world (store [t1; t2; t3] 0)) w'
      [from_service_account_info (VDict ∅);
       get_bucket (VObject "Credentials") (VStr "backup-bucket");
       list_blobs (VObject "Bucket") "backups/"] /\
    (forall b, b ∈ before -> (time_created b < time_created latest)%Z) /\
    (forall b, b ∈ after -> (time_created b <= time_created latest)%Z).
Proof.
  apply (lastBackupFile_returns_first_newest (VDict ∅) (VStr "backup-bucket")
           "backups/" (world (store [t1; t2; t3] 0))
           (VObject "Credentials") (VObject "Bucket") [t1; t2; t3]);
    [vm_compute; reflexivity | vm_compute; reflexivity | vm_compute; reflexivity
    | discriminate].
Defined.

(** It is the artifact of 2021-06-01 that [_lastBackupFile] names. *)
Example lastBackupFile_names_t2 :
  (_lastBackupFile (VDict ∅) (VStr "backup-bucket") "backups/"
     (world (store [t1; t2; t3] 0))).1
    = Return (VStr "mongodb-backup-default-mongo-cluster-2021-06-01.archive.gz").
Proof. vm_compute. reflexivity. Qed.

(** The listing [t1; t2; t3]: the loop ends on [t2]. *)
Lemma three_artifacts_elect :
  exists before latest after w',
    [t1; t2; t3] = (before ++ latest :: after)%list /\
    for_blobs (VStr "backup-bucket") [t1; t2; t3] None (world (store [t1; t2; t3] 0))
      = (Return (Some latest), w') /\
    name_of (Some latest) = VStr (blob_name latest) /\
    (forall b, b ∈ before -> (time_created b < time_created latest)%Z) /\
    (forall b, b ∈ after -> (time_created b <= time_created latest)%Z).
Proof. apply lastBackupFile_elects_first_newest. discriminate. Defined.

(** Over the artifacts created 2021-01-01, 2021-06-01 and 2021-03-01,
    [getLastBackup] returns the name of the one of 2021-06-01. *)
Example getLastBackup_of_three_artifacts :
  (getLastBackup (cluster (Some "latest")) (world (store [t1; t2; t3] 0))).1
    = Return (VStr "mongodb-backup-default-mongo-cluster-2021-06-01.archive.gz").
Proof. vm_compute. reflexivity. Qed.

(** Of two artifacts of the same age the first one listed is kept. *)
Example getLastBackup_of_a_tie :
  (getLastBackup (cluster (Some "latest"))
     (world (store [t1; t2; {| blob_name := "twin"; time_created := 1622505600 |}] 0))).1
    = Return (VStr "mongodb-backup-default-mongo-cluster-2021-06-01.archive.gz").
Proof. vm_compute. reflexivity. Qed.

(** Over an empty bucket [getLastBackup] returns [None]. *)
Example getLastBackup_of_empty_bucket :
  (getLastBackup (cluster (Some "latest")) (world (store [] 0))).1 = Return VNone.
Proof. vm_compute. reflexivity. Qed.

(** A restore of artifact [x] whose executable exits with code 2: whatever
    the executable wrote to its standard error, the message has [None]. *)
Lemma restore_exit_2_message :
  (restore (cluster (Some "x")) (VStr "x") (world (store [] 2))).1 =
    Raise (SubprocessError
             ("Could not restore '" +:+ py_str (VStr "x") +:+ "' to '"
              +:+ hostname_of (cluster (Some "x")) +:+ "'. Return code: "
              +:+ pretty 2 +:+ newline +:+ " stderr: 'None'" +:+ newline
              +:+ " stdout: '" +:+ py_str (VBytes "") +:+ "'")).
Proof.
  apply (restore_failure_message_lacks_stderr (cluster (Some "x")) (VStr "x")
           (world (store [] 2))
           (downloaded (cluster (Some "x")) (VStr "x") (world (store [] 2)))
           "/tmp/x" 2 (VBytes ""));
    [unfold downloaded; apply run_eq |]; vm_compute; reflexivity.
Defined.

(** A restore of artifact [x] whose executable exits with code 2. *)
Lemma restore_exit_2_is_explicit :
  exists message w2,
    restore (cluster (Some "x")) (VStr "x") (world (store [] 2))
      = (Raise (SubprocessError message), w2) /\
    carries message (py_str (VStr "x")) /\
    carries message (hostname_of (cluster (Some "x"))) /\
    carries message (pretty 2) /\
    carries message (py_str VNone) /\
    carries message (py_str (VBytes "")).
Proof.
  apply (restore_failure_is_explicit (cluster (Some "x")) (VStr "x")
           (world (store [] 2))
           (downloaded (cluster (Some "x")) (VStr "x") (world (store [] 2)))
           "/tmp/x" 2 VNone (VBytes ""));
    [apply run_eq |]; vm_compute; reflexivity.
Defined.

Lemma restore_exit_2_keeps_scratch_file :
  exists e w2,
    restore (cluster (Some "x")) (VStr "x") (world (store [] 2)) = (Raise e, w2) /\
    issued (downloaded (cluster (Some "x")) (VStr "x") (world (store [] 2))) w2
      [mongorestore (hostname_of (cluster (Some "x"))) "/tmp/x"] /\
    os_remove "/tmp/x" ∉ [mongorestore (hostname_of (cluster (Some "x"))) "/tmp/x"].
Proof.
  apply (restore_failure_keeps_scratch_file (cluster (Some "x")) (VStr "x")
           (world (store [] 2))
           (downloaded (cluster (Some "x")) (VStr "x") (world (store [] 2)))
           "/tmp/x" 2 VNone (VBytes ""));
    [apply run_eq |]; vm_compute; reflexivity.
Defined.

(** The calls of that restore, start to end: the scratch file is written
    and never removed. *)
Example restore_exit_2_calls :
  trace (restore (cluster (Some "x")) (VStr "x") (world (store [] 2))).2
    = [read_namespaced_secret (VStr "storage-serviceaccount") (VStr "default");
       from_service_account_info (VDict ∅);
       get_bucket (VObject "Credentials") (VStr "backup-bucket");
       download_to_filename (VObject "Bucket") "backups/x" "/tmp/x";
       check_output ["mongorestore"; "--host";
                     "mongo-cluster-2.mongo-cluster.default.svc.cluster.local";
                     "--gzip"; "--archive"; "/tmp/x"]].
Proof. vm_compute. reflexivity. Qed.

(** The same restore when the executable succeeds: the scratch file is
    removed. *)
Lemma restore_exit_0_removes_scratch_file :
  exists w2,
    restore (cluster (Some "x")) (VStr "x") (world (store [] 0)) = (Return VNone, w2) /\
    issued (downloaded (cluster (Some "x")) (VStr "x") (world (store [] 0))) w2
      [mongorestore (hostname_of (cluster (Some "x"))) "/tmp/x"; os_remove "/tmp/x"].
Proof.
  apply (restore_zero_exit (cluster (Some "x")) (VStr "x") (world (store [] 0))
           (downloaded (cluster (Some "x")) (VStr "x") (world (store [] 0)))
           "/tmp/x" (VBytes "done") VNone);
    [apply run_eq | |]; vm_compute; reflexivity.
Defined.

(** [restore_from: latest] over an empty bucket. *)
Lemma latest_of_empty_bucket_raises :
  exists e w2,
    restoreIfNeeded (cluster (Some "latest")) (world (store [] 0)) = (Raise e, w2) /\
    issued (getLastBackup (cluster (Some "latest")) (world (store [] 0))).2 w2
      [read_credentials (cluster (Some "latest"))].
Proof.
  apply restoreIfNeeded_latest_without_artifact;
    [| apply run_eq]; vm_compute; reflexivity.
Defined.

(** The exception is the [TypeError] of ["/tmp/" + None]. *)
Example latest_of_empty_bucket_TypeError :
  (restoreIfNeeded (cluster (Some "latest")) (world (store [] 0))).1
    = Raise (TypeError "can only concatenate str to str").
Proof. vm_compute. reflexivity. Qed.

End OnThePlatform.

(** * More of the code *)

(** ** Restore: sources, credentials, download *)

Section MoreRestore.
Context `{Helpers}.
Import KubernetesService RestoreHelper.

(** Without a restore source [restoreIfNeeded] returns [False] and leaves
    the world as it is: no call, no log line. *)
Theorem restoreIfNeeded_without_source (c : V1MongoClusterConfiguration) (w : World) :
  restore_from (gcs c) = None ->
  restoreIfNeeded c w = (Return false, w).
Proof. intros Hnone. unfold restoreIfNeeded. rewrite Hnone. reflexivity. Qed.

(** With the name of an artifact as restore source, [restoreIfNeeded] logs
    the attempt and runs [restore] on that name: it returns [True] when
    [restore] returns and raises what [restore] raises. *)
Theorem restoreIfNeeded_named_source (c : V1MongoClusterConfiguration)
    (source : string) (w : World) :
  restore_from (gcs c) = Some source ->
  source <> "latest" ->
  restoreIfNeeded c w =
    match restore c (VStr source) (logged w (attempting c (VStr source))) with
    | (Return _, w') => (Return true, w')
    | (Raise e, w') => (Raise e, w')
    end.
Proof.
  intros Hsource Hnamed. unfold restoreIfNeeded. rewrite Hsource.
  destruct (decide (source = "latest")) as [Heq | _]; [contradiction |].
  unfold bind, logging, ret, logged, attempting.
  destruct (restore c (VStr source) _) as [[v | e] w']; reflexivity.
Qed.

(** When the secret holds no entry under the key the cluster names,
    [_getCredentials] raises [KeyError] for that key, after the read of the
    secret. *)
Theorem getCredentials_missing_key (c : V1MongoClusterConfiguration) (w : World)
    (s : V1Secret) :
  respond w (trace w) (read_credentials c) = Return (VSecret s) ->
  data s !! ref_key (secret_key_ref (gcs c)) = None ->
  exists w',
    _getCredentials c w = (Raise (KeyError (ref_key (secret_key_ref (gcs c)))), w') /\
    issued w w' [read_credentials c].
Proof.
  intros Hread Hkey.
  unfold _getCredentials, getSecret, def2, bind, call, lift, raise, ret, issued.
  unfold read_credentials in Hread. simpl. rewrite Hread. simpl. rewrite Hkey.
  eexists. split; reflexivity.
Qed.

(** When the secret holds the entry, the credentials are the entry decoded
    from base 64 and parsed as JSON; a failure of either step is the failure
    of [_getCredentials]. *)
Theorem getCredentials_decodes (c : V1MongoClusterConfiguration) (w : World)
    (s : V1Secret) (encoded : string) :
  respond w (trace w) (read_credentials c) = Return (VSecret s) ->
  data s !! ref_key (secret_key_ref (gcs c)) = Some encoded ->
  (_getCredentials c w).1 =
    match b64decode encoded with
    | Return json => json_loads json
    | Raise e => Raise e
    end.
Proof.
  intros Hread Hkey.
  unfold _getCredentials, getSecret, def2, bind, call, lift, raise, ret.
  unfold read_credentials in Hread. simpl. rewrite Hread. simpl. rewrite Hkey.
  simpl. destruct (b64decode encoded) as [json | e]; simpl; [| reflexivity].
  destruct (json_loads json); reflexivity.
Qed.

(** When the secret with the credentials cannot be read, [restore] raises
    what the read raised; the read is its only call, so neither the backup
    store nor the restore executable is reached. *)
Theorem restore_without_credentials (c : V1MongoClusterConfiguration)
    (backup_file : Value) (w : World) (e : PyExc) :
  respond w (trace w) (read_credentials c) = Raise e ->
  exists w',
    restore c backup_file w = (Raise e, w') /\
    issued w w' [read_credentials c].
Proof.
  intros Hread.
  unfold restore, _downloadBackup, _getCredentials, getSecret, def2, bind, call,
    logging, lift, raise, ret, issued.
  unfold read_credentials in Hread. simpl. rewrite Hread.
  eexists. split; reflexivity.
Qed.

(** The download of a named artifact: with the credentials at hand and a
    backup store that answers, [_downloadBackup] fetches the key
    [<prefix>/<name>] of the restore bucket (the backup bucket when there is
    none) into [/tmp/<name>] and returns that path. *)
Theorem downloadBackup_of_name (c : V1MongoClusterConfiguration) (name : string)
    (w w1 : World) (credentials account bucket_object done : Value) :
  let c1 := from_service_account_info credentials in
  let c2 := get_bucket account (VStr (bucket_of c)) in
  let c3 := download_to_filename bucket_object
              (prefix_of_cluster c +:+ "/" +:+ name) ("/tmp/" +:+ name) in
  _getCredentials c w = (Return credentials, w1) ->
  respond w1 (trace w1) c1 = Return account ->
  respond w1 (trace w1 ++ [c1])%list c2 = Return bucket_object ->
  respond w1 ((trace w1 ++ [c1]) ++ [c2])%list c3 = Return done ->
  exists w',
    _downloadBackup c (VStr name) w = (Return ("/tmp/" +:+ name), w') /\
    issued w1 w' [c1; c2; c3].
Proof.
  intros c1 c2 c3 Hcredentials H1 H2 H3.
  unfold _downloadBackup, bind. rewrite Hcredentials.
  unfold str_add, ret, _downloadFile, bind, call, logging. simpl.
  fold (bucket_of c) (prefix_of_cluster c).
  fold c1. rewrite H1. simpl. fold c2. rewrite H2. simpl. fold c3. rewrite H3.
  eexists. split; [reflexivity |].
  unfold issued. simpl. rewrite <- !app_assoc. reflexivity.
Qed.

(** [restore] never lists the bucket: whatever the artifact and whatever
    the environment answers, none of its calls is [list_blobs]. *)
Theorem restore_never_lists (c : V1MongoClusterConfiguration) (backup_file : Value)
    (w : World) :
  exists calls,
    issued w (restore c backup_file w).2 calls /\
    Forall (fun call => is_listing call = false) calls.
Proof.
  unfold restore, _downloadBackup, _downloadFile, _getCredentials, getSecret, def2,
    try_except, bind, call, logging, lift, raise, ret, str_add, issued.
  simpl.
  repeat match goal with
  | |- context [match respond ?r ?t ?q with _ => _ end] =>
      destruct (respond r t q) as [? | []]; simpl
  | |- context [match data ?s !! ?k with _ => _ end] => destruct (data s !! k); simpl
  | |- context [match b64decode ?x with _ => _ end] => destruct (b64decode x); simpl
  | |- context [match json_loads ?x with _ => _ end] => destruct (json_loads x); simpl
  | |- context [match ?v with VNone => _ | _ => _ end] => destruct v; simpl
  end;
  (eexists; split;
   [rewrite <- ?app_assoc; simpl; try reflexivity;
    rewrite app_nil_r; reflexivity
   | repeat constructor]).
Qed.

End MoreRestore.

(** ** The election of the last backup *)

Section MoreElection.
Context `{Helpers}.
Import KubernetesService RestoreHelper.

(** The loop of [_lastBackupFile] issues no call and logs one line for
    each blob of the listing, in the order of the listing. *)
Theorem for_blobs_logs_each_blob (bucket_name : Value) (blobs : list Blob)
    (last_blob : option Blob) (w : World) :
  let w' := (for_blobs bucket_name blobs last_blob w).2 in
  trace w' = trace w /\
  log w' = (log w ++ map (found_backup bucket_name) blobs)%list.
Proof.
  revert last_blob w.
  induction blobs as [| blob blobs IH]; intros last_blob w; simpl.
  - split; [reflexivity | rewrite app_nil_r; reflexivity].
  - unfold bind, logging.
    destruct (IH (elect last_blob blob) (logged w (found_backup bucket_name blob)))
      as [Htrace Hlog].
    unfold logged, found_backup in Htrace, Hlog. simpl in Htrace, Hlog.
    split; [exact Htrace |].
    rewrite Hlog, <- app_assoc. reflexivity.
Qed.

(** The loop ends on no blob exactly when the listing is empty. *)
Lemma for_blobs_None_iff_empty (bucket_name : Value) (blobs : list Blob)
    (w : World) :
  (for_blobs bucket_name blobs None w).1 = Return None <-> blobs = [].
Proof.
  destruct (for_blobs_fold bucket_name blobs None w) as (w' & Heq & _ & _).
  rewrite Heq. simpl. split.
  - destruct blobs as [| first blobs]; [reflexivity |]. simpl.
    destruct (fold_elect_from blobs first) as (latest & Hfold & _).
    rewrite Hfold. discriminate.
  - intros ->. reflexivity.
Qed.

(** When the storage client answers, [_lastBackupFile] returns [None]
    exactly when the listing is empty; over any other listing it returns
    the name of one of the blobs listed. *)
Theorem lastBackupFile_None_iff_empty
    (credentials bucket_name : Value) (key : string) (w : World)
    (account bucket_object : Value) (blobs : list Blob) :
  let c1 := from_service_account_info credentials in
  let c2 := get_bucket account bucket_name in
  let c3 := list_blobs bucket_object key in
  respond w (trace w) c1 = Return account ->
  respond w (trace w ++ [c1])%list c2 = Return bucket_object ->
  respond w ((trace w ++ [c1]) ++ [c2])%list c3 = Return (VBlobs blobs) ->
  ((_lastBackupFile credentials bucket_name key w).1 = Return VNone
     <-> blobs = []) /\
  (blobs <> [] ->
   exists blob,
     blob ∈ blobs /\
     (_lastBackupFile credentials bucket_name key w).1
       = Return (VStr (blob_name blob))).
Proof.
  intros c1 c2 c3 H1 H2 H3.
  destruct (lastBackupFile_returns credentials bucket_name key w account
              bucket_object blobs H1 H2 H3) as (w' & Heq & _).
  rewrite Heq. simpl.
  destruct blobs as [| first blobs]; simpl.
  - split; [split; reflexivity | congruence].
  - destruct (fold_elect_from blobs first) as (latest & Hfold & Hcase).
    rewrite Hfold. simpl. split; [split; discriminate |].
    intros _. exists latest. split; [| reflexivity].
    destruct Hcase as [[-> _] | (before & after & -> & _)]; [left |].
    right. apply elem_of_app. right. left.
Qed.

(** A blob listed after the others is elected when it is strictly newer
    than all of them, and changes nothing when one of them is as new or
    newer. *)
Theorem for_blobs_appended_blob (bucket_name : Value) (blobs : list Blob)
    (blob : Blob) (w : World) :
  ((forall b, b ∈ blobs -> (time_created b < time_created blob)%Z) ->
   (for_blobs bucket_name (blobs ++ [blob]) None w).1 = Return (Some blob)) /\
  ((exists b, b ∈ blobs /\ (time_created blob <= time_created b)%Z) ->
   (for_blobs bucket_name (blobs ++ [blob]) None w).1
     = (for_blobs bucket_name blobs None w).1).
Proof.
  destruct (for_blobs_fold bucket_name (blobs ++ [blob]) None w) as (w1 & Heq1 & _ & _).
  destruct (for_blobs_fold bucket_name blobs None w) as (w2 & Heq2 & _ & _).
  rewrite Heq1, Heq2. simpl. rewrite fold_left_app. simpl.
  destruct blobs as [| first blobs].
  - split; [reflexivity |]. intros (b & Hb & _). inversion Hb.
  - simpl. destruct (fold_elect_from blobs first) as (latest & Hfold & Hcase).
    rewrite Hfold. simpl.
    assert (Hin : latest ∈ first :: blobs).
    { destruct Hcase as [[-> _] | (before & after & -> & _)]; [left |].
      right. apply elem_of_app. right. left. }
    assert (Hmax : forall b, b ∈ first :: blobs ->
                     (time_created b <= time_created latest)%Z).
    { intros b Hb. apply elem_of_cons in Hb as [-> | Hb].
      - destruct Hcase as [[-> _] | (_ & _ & _ & Hlt & _)]; lia.
      - destruct Hcase as [[-> Hall] | (before & after & -> & _ & Hbefore & Hafter)];
          [auto |].
        apply elem_of_app in Hb as [Hb | Hb]; [specialize (Hbefore b Hb); lia |].
        apply elem_of_cons in Hb as [-> | Hb]; [lia | auto]. }
    split.
    + intros Hnewer. specialize (Hnewer latest Hin).
      destruct (Z.gtb_spec (time_created blob) (time_created latest)); [reflexivity | lia].
    + intros (b & Hb & Hle). specialize (Hmax b Hb).
      destruct (Z.gtb_spec (time_created blob) (time_created latest)); [lia | reflexivity].
Qed.

(** [getLastBackup], with the credentials at hand and a backup store that
    answers: it lists the restore bucket (the backup bucket when there is
    none) under [<prefix>/], with [backups] for a prefix that is not set,
    issues these three calls and no other, and returns the name the loop
    elects. *)
Theorem getLastBackup_lists_prefix (c : V1MongoClusterConfiguration) (w w1 : World)
    (credentials account bucket_object : Value) (blobs : list Blob) :
  let c1 := from_service_account_info credentials in
  let c2 := get_bucket account (VStr (bucket_of c)) in
  let c3 := list_blobs bucket_object (prefix_of_cluster c +:+ "/") in
  _getCredentials c w = (Return credentials, w1) ->
  respond w1 (trace w1) c1 = Return account ->
  respond w1 (trace w1 ++ [c1])%list c2 = Return bucket_object ->
  respond w1 ((trace w1 ++ [c1]) ++ [c2])%list c3 = Return (VBlobs blobs) ->
  exists w',
    getLastBackup c w = (Return (name_of (fold_left elect blobs None)), w') /\
    issued w1 w' [c1; c2; c3].
Proof.
  intros c1 c2 c3 Hcredentials H1 H2 H3.
  unfold getLastBackup, bind. rewrite Hcredentials.
  fold (bucket_of c) (prefix_of_cluster c).
  apply (lastBackupFile_returns credentials (VStr (bucket_of c))
           (prefix_of_cluster c +:+ "/") w1 account bucket_object blobs H1 H2 H3).
Qed.

(** What the two choices come to: a restore bucket or a prefix that is
    missing or empty gives way to the backup bucket and to [backups]. *)
Theorem bucket_and_prefix_defaults (c : V1MongoClusterConfiguration) :
  (bucket_of c = bucket (gcs c) <->
     restore_bucket (gcs c) = None \/ restore_bucket (gcs c) = Some "" \/
     restore_bucket (gcs c) = Some (bucket (gcs c))) /\
  (prefix_of_cluster c = "backups" <->
     prefix (gcs c) = None \/ prefix (gcs c) = Some "" \/
     prefix (gcs c) = Some "backups").
Proof.
  unfold bucket_of, prefix_of_cluster, or_else, DEFAULT_BACKUP_PREFIX.
  split.
  - destruct (restore_bucket (gcs c)) as [s |]; [| split; auto].
    destruct (decide (s = "")) as [-> | Hne]; [split; auto |].
    split; [intros ->; auto |].
    intros [Hn | [He | Hs]]; congruence.
  - destruct (prefix (gcs c)) as [s |]; [| split; auto].
    destruct (decide (s = "")) as [-> | Hne]; [split; auto |].
    split; [intros ->; auto |].
    intros [Hn | [He | Hs]]; congruence.
Qed.

(** A failure of the call of the restore executable that is not an exit
    code (the executable is missing, say) leaves [restore] as it is, not
    wrapped in [SubprocessError]; the scratch file is not removed
    either. *)
Theorem restore_other_failure_propagates (c : V1MongoClusterConfiguration)
    (backup_file : Value) (w w1 : World) (file : string) (e : PyExc) :
  _downloadBackup c backup_file (announced c backup_file w) = (Return file, w1) ->
  respond w1 (trace w1) (mongorestore (hostname_of c) file) = Raise e ->
  (forall returncode stderr stdout, e <> CalledProcessError returncode stderr stdout) ->
  exists w2,
    restore c backup_file w = (Raise e, w2) /\
    issued w1 w2 [mongorestore (hostname_of c) file].
Proof.
  intros Hdownload Hfail Hother.
  unfold announced, logged in Hdownload.
  unfold restore, bind, logging, try_except, call.
  rewrite Hdownload, Hfail.
  destruct e; try (eexists; split; reflexivity).
  exfalso. eapply Hother. reflexivity.
Qed.

End MoreElection.

(** ** Secrets and the Added handler *)

Section MoreService.
Context `{Helpers}.
Import KubernetesService EventManager.

(** An API error of the creation that is not a conflict is raised again:
    [createSecret] does not read the secret and raises the error of the
    creation. *)
Theorem createSecret_reraises_other_api_errors
    (secret_name namespace secret_data : Value) (w : World) (status : Z) :
  let create :=
    create_namespaced_secret namespace
      (KubernetesResources_createSecret secret_name namespace secret_data) in
  respond w (trace w) create = Raise (ApiException status) ->
  status <> 409 ->
  exists w',
    createSecret [secret_name; namespace; secret_data] w
      = (Raise (ApiException status), w') /\
    issued w w' [create] /\ log w' = log w.
Proof.
  intros create Hcreate Hstatus.
  unfold createSecret, def3, try_except, bind, call, logging, raise, ret, issued.
  simpl. fold create. rewrite Hcreate.
  destruct (Z.eqb_spec status 409) as [-> | _]; [contradiction |].
  eexists. repeat split.
Qed.

(** After a conflict, a failure of the read of the existing secret is the
    failure of [createSecret]: the fallback is not guarded. *)
Theorem createSecret_conflict_then_read_failure
    (secret_name namespace secret_data : Value) (w : World) (e : PyExc) :
  let create :=
    create_namespaced_secret namespace
      (KubernetesResources_createSecret secret_name namespace secret_data) in
  let read := read_namespaced_secret secret_name namespace in
  respond w (trace w) create = Raise (ApiException 409) ->
  respond w (trace w ++ [create])%list read = Raise e ->
  exists w',
    createSecret [secret_name; namespace; secret_data] w = (Raise e, w') /\
    issued w w' [create; read].
Proof.
  intros create read Hcreate Hread.
  unfold createSecret, getSecret, def2, def3, try_except, bind, call, logging,
    raise, ret, issued.
  simpl. fold create. rewrite Hcreate. simpl. fold read. rewrite Hread.
  eexists. split; [reflexivity |].
  simpl. rewrite <- app_assoc. reflexivity.
Qed.

(** When the platform accepts the three creations, the Added handler
    issues them in the order secret, service, stateful set, after it drew
    the password, and returns. *)
Theorem add_creates_in_order (c : V1MongoClusterConfiguration) (w : World)
    (password secret service stateful_set : Value) :
  let name := VStr (OPERATOR_ADMIN_SECRET_FORMAT (meta_name (metadata c))) in
  let namespace := VStr (meta_namespace (metadata c)) in
  let secret_data :=
    VDict (<["password" := password]> {["username" := VStr "root"]}) in
  let body := KubernetesResources_createService (VCluster c) in
  let c1 := createRandomPassword in
  let c2 := create_namespaced_secret namespace
              (KubernetesResources_createSecret name namespace secret_data) in
  let c3 := create_namespaced_service namespace body in
  let c4 := create_namespaced_stateful_set namespace body in
  respond w (trace w) c1 = Return password ->
  respond w (trace w ++ [c1])%list c2 = Return secret ->
  respond w (trace w ++ [c1; c2])%list c3 = Return service ->
  respond w (trace w ++ [c1; c2; c3])%list c4 = Return stateful_set ->
  exists w',
    _add (VCluster c) w = (Return VNone, w') /\
    issued w w' [c1; c2; c3; c4].
Proof.
  intros name namespace secret_data body c1 c2 c3 c4 H1 H2 H3 H4.
  unfold _add, createOperatorAdminSecret, createSecret, createService,
    createStatefulSet, def1, def3, try_except, bind, call, logging, get_metadata,
    ret, issued.
  simpl. fold c1. rewrite H1. simpl.
  fold name namespace. fold secret_data. fold c2. rewrite H2. simpl.
  fold body. fold c3.
  replace ((trace w ++ [c1]) ++ [c2])%list with (trace w ++ [c1; c2])%list
    by (rewrite <- app_assoc; reflexivity).
  rewrite H3. simpl. fold c4.
  replace ((trace w ++ [c1; c2]) ++ [c3])%list with (trace w ++ [c1; c2; c3])%list
    by (rewrite <- app_assoc; reflexivity).
  rewrite H4.
  eexists. split; [reflexivity |].
  simpl. rewrite <- app_assoc. reflexivity.
Qed.

(** When the creation of the credential secret fails with an API error that
    is not a conflict, the Added event ends there: neither the service nor
    the stateful set is created, and [_processEvent] returns. *)
Theorem added_stops_at_secret_failure (event : gmap string Value)
    (c : V1MongoClusterConfiguration) (w : World) (password : Value) (status : Z) :
  let name := VStr (OPERATOR_ADMIN_SECRET_FORMAT (meta_name (metadata c))) in
  let namespace := VStr (meta_namespace (metadata c)) in
  let secret_data :=
    VDict (<["password" := password]> {["username" := VStr "root"]}) in
  let c1 := createRandomPassword in
  let c2 := create_namespaced_secret namespace
              (KubernetesResources_createSecret name namespace secret_data) in
  event !! "type" = Some (VStr "ADDED") ->
  event !! "object" = Some (VCluster c) ->
  respond w (trace w) c1 = Return password ->
  respond w (trace w ++ [c1])%list c2 = Raise (ApiException status) ->
  status <> 409 ->
  exists w',
    _processEvent event w = (Return VNone, w') /\
    issued w w' [c1; c2].
Proof.
  intros name namespace secret_data c1 c2 Htype Hobject H1 H2 Hstatus.
  rewrite (processEvent_dispatch event "ADDED" (VCluster c) _add w
             Htype Hobject eq_refl).
  unfold _add, createOperatorAdminSecret, createSecret, def1, def3, try_except,
    bind, call, logging, get_metadata, raise, ret, issued.
  simpl. fold c1. rewrite H1. simpl.
  fold name namespace. fold secret_data. fold c2. rewrite H2.
  destruct (Z.eqb_spec status 409) as [-> | _]; [contradiction |].
  eexists. split; [reflexivity |].
  simpl. rewrite <- app_assoc. reflexivity.
Qed.

End MoreService.

(** ** More of the code on the reference platform *)

Section MoreOnThePlatform.
Import KubernetesService EventManager RestoreHelper Platform.

Lemma no_source_no_restore :
  restoreIfNeeded (cluster None) (world (store [] 0))
    = (Return false, world (store [] 0)).
Proof. apply restoreIfNeeded_without_source. reflexivity. Defined.

Lemma named_source_runs_restore :
  restoreIfNeeded (cluster (Some "x")) (world (store [] 0)) =
    match restore (cluster (Some "x")) (VStr "x")
            (logged (world (store [] 0)) (attempting (cluster (Some "x")) (VStr "x")))
    with
    | (Return _, w') => (Return true, w')
    | (Raise e, w') => (Raise e, w')
    end.
Proof. apply restoreIfNeeded_named_source; [reflexivity | discriminate]. Defined.

Lemma wrong_key_raises_KeyError :
  exists w',
    _getCredentials cluster_with_wrong_key (world (store [] 0))
      = (Raise (KeyError (ref_key (secret_key_ref (gcs cluster_with_wrong_key)))), w') /\
    issued (world (store [] 0)) w' [read_credentials cluster_with_wrong_key].
Proof.
  apply (getCredentials_missing_key cluster_with_wrong_key (world (store [] 0))
           {| secret_name := "storage-serviceaccount"; secret_namespace := "default";
              data := {["json" := "e30="]} |});
    vm_compute; reflexivity.
Defined.

Lemma credentials_are_decoded :
  (_getCredentials (cluster (Some "latest")) (world (store [] 0))).1 =
    match b64decode "e30=" with
    | Return json => json_loads json
    | Raise e => Raise e
    end.
Proof.
  apply (getCredentials_decodes (cluster (Some "latest")) (world (store [] 0))
           {| secret_name := "storage-serviceaccount"; secret_namespace := "default";
              data := {["json" := "e30="]} |} "e30=");
    vm_compute; reflexivity.
Defined.

Lemma restore_on_unreachable_platform :
  exists w',
    restore (cluster (Some "x")) (VStr "x") unreachable
      = (Raise (OtherError "MaxRetryError"), w') /\
    issued unreachable w' [read_credentials (cluster (Some "x"))].
Proof. apply restore_without_credentials. reflexivity. Defined.

Lemma download_from_restore_bucket :
  exists w',
    _downloadBackup cluster_with_restore_bucket (VStr "x") (world (store [] 0))
      = (Return ("/tmp/" +:+ "x"), w') /\
    issued (_getCredentials cluster_with_restore_bucket (world (store [] 0))).2 w'
      [from_service_account_info (VDict ∅);
       get_bucket (VObject "Credentials") (VStr (bucket_of cluster_with_restore_bucket));
       download_to_filename (VObject "Bucket")
         (prefix_of_cluster cluster_with_restore_bucket +:+ "/" +:+ "x")
         ("/tmp/" +:+ "x")].
Proof.
  apply (downloadBackup_of_name cluster_with_restore_bucket "x" (world (store [] 0))
           (_getCredentials cluster_with_restore_bucket (world (store [] 0))).2
           (VDict ∅) (VObject "Credentials") (VObject "Bucket") VNone);
    [apply run_eq | | |]; vm_compute; reflexivity.
Defined.

(** The bucket and the key of that download. *)
Example download_from_restore_bucket_calls :
  trace (_downloadBackup cluster_with_restore_bucket (VStr "x")
           (world (store [] 0))).2
    = [read_namespaced_secret (VStr "storage-serviceaccount") (VStr "default");
       from_service_account_info (VDict ∅);
       get_bucket (VObject "Credentials") (VStr "restores");
       download_to_filename (VObject "Bucket") "nightly/x" "/tmp/x"].
Proof. vm_compute. reflexivity. Qed.

Lemma latest_of_restore_bucket :
  exists w',
    getLastBackup cluster_with_restore_bucket (world (store [t1; t2; t3] 0))
      = (Return (name_of (fold_left elect [t1; t2; t3] None)), w') /\
    issued (_getCredentials cluster_with_restore_bucket
              (world (store [t1; t2; t3] 0))).2 w'
      [from_service_account_info (VDict ∅);
       get_bucket (VObject "Credentials") (VStr (bucket_of cluster_with_restore_bucket));
       list_blobs (VObject "Bucket")
         (prefix_of_cluster cluster_with_restore_bucket +:+ "/")].
Proof.
  apply (getLastBackup_lists_prefix cluster_with_restore_bucket
           (world (store [t1; t2; t3] 0))
           (_getCredentials cluster_with_restore_bucket
              (world (store [t1; t2; t3] 0))).2
           (VDict ∅) (VObject "Credentials") (VObject "Bucket") [t1; t2; t3]);
    [apply run_eq | | |]; vm_compute; reflexivity.
Defined.

Lemma restore_without_executable :
  exists w2,
    restore (cluster (Some "x")) (VStr "x") (without_mongorestore (store [] 0))
      = (Raise (OtherError "FileNotFoundError"), w2) /\
    issued (downloaded (cluster (Some "x")) (VStr "x")
              (without_mongorestore (store [] 0))) w2
      [mongorestore (hostname_of (cluster (Some "x"))) "/tmp/x"].
Proof.
  apply (restore_other_failure_propagates (cluster (Some "x")) (VStr "x")
           (without_mongorestore (store [] 0))
           (downloaded (cluster (Some "x")) (VStr "x")
              (without_mongorestore (store [] 0)))
           "/tmp/x" (OtherError "FileNotFoundError"));
    [unfold downloaded; apply run_eq; vm_compute; reflexivity
    | vm_compute; reflexivity
    | intros; discriminate].
Defined.

Lemma forbidden_secret_is_not_read :
  exists w',
    createSecret [VStr "mongo-cluster-admin-credentials"; VStr "default"; VDict ∅]
      forbidden
      = (Raise (ApiException 403), w') /\
    issued forbidden w'
      [create_namespaced_secret (VStr "default")
         (KubernetesResources_createSecret (VStr "mongo-cluster-admin-credentials")
            (VStr "default") (VDict ∅))] /\
    log w' = log forbidden.
Proof.
  apply (createSecret_reraises_other_api_errors
           (VStr "mongo-cluster-admin-credentials") (VStr "default") (VDict ∅)
           forbidden 403); [reflexivity | discriminate].
Defined.

Lemma secret_gone_after_conflict :
  exists w',
    createSecret [VStr "mongo-cluster-admin-credentials"; VStr "default"; VDict ∅]
      racing
      = (Raise (ApiException 404), w') /\
    issued racing w'
      [create_namespaced_secret (VStr "default")
         (KubernetesResources_createSecret (VStr "mongo-cluster-admin-credentials")
            (VStr "default") (VDict ∅));
       read_namespaced_secret (VStr "mongo-cluster-admin-credentials")
         (VStr "default")].
Proof.
  apply (createSecret_conflict_then_read_failure
           (VStr "mongo-cluster-admin-credentials") (VStr "default") (VDict ∅)
           racing (ApiException 404)); reflexivity.
Defined.

Lemma added_on_empty_platform :
  exists w',
    _add (VCluster (cluster None)) (world (store [] 0)) = (Return VNone, w') /\
    issued (world (store [] 0)) w'
      [createRandomPassword;
       create_namespaced_secret (VStr (meta_namespace (metadata (cluster None))))
         (KubernetesResources_createSecret
            (VStr (OPERATOR_ADMIN_SECRET_FORMAT (meta_name (metadata (cluster None)))))
            (VStr (meta_namespace (metadata (cluster None))))
            (VDict (<["password" := VStr "correct horse battery staple"]>
                      {["username" := VStr "root"]})));
       create_namespaced_service (VStr (meta_namespace (metadata (cluster None))))
         (KubernetesResources_createService (VCluster (cluster None)));
       create_namespaced_stateful_set (VStr (meta_namespace (metadata (cluster None))))
         (KubernetesResources_createService (VCluster (cluster None)))].
Proof.
  apply (add_creates_in_order (cluster None) (world (store [] 0))
           (VStr "correct horse battery staple") admin_secret
           (VManifest "Service" "mongo-cluster" "default")
           (VManifest "Service" "mongo-cluster" "default"));
    vm_compute; reflexivity.
Defined.

Lemma added_on_forbidden_platform :
  exists w',
    _processEvent (event "ADDED" (VCluster (cluster None))) forbidden
      = (Return VNone, w') /\
    issued forbidden w'
      [createRandomPassword;
       create_namespaced_secret (VStr (meta_namespace (metadata (cluster None))))
         (KubernetesResources_createSecret
            (VStr (OPERATOR_ADMIN_SECRET_FORMAT (meta_name (metadata (cluster None)))))
            (VStr (meta_namespace (metadata (cluster None))))
            (VDict (<["password" := VStr "correct horse battery staple"]>
                      {["username" := VStr "root"]})))].
Proof.
  apply (added_stops_at_secret_failure (event "ADDED" (VCluster (cluster None)))
           (cluster None) forbidden (VStr "correct horse battery staple") 403);
    [reflexivity | reflexivity | reflexivity | reflexivity | discriminate].
Defined.

(** Over an empty bucket and over the three artifacts. *)
Lemma lastBackupFile_of_empty_bucket :
  ((_lastBackupFile (VDict ∅) (VStr "backup-bucket") "backups/"
      (world (store [] 0))).1 = Return VNone
     <-> @nil Blob = []) /\
  (@nil Blob <> [] ->
   exists blob,
     blob ∈ @nil Blob /\
     (_lastBackupFile (VDict ∅) (VStr "backup-bucket") "backups/"
        (world (store [] 0))).1
       = Return (VStr (blob_name blob))).
Proof.
  apply (lastBackupFile_None_iff_empty (VDict ∅) (VStr "backup-bucket")
           "backups/" (world (store [] 0))
           (VObject "Credentials") (VObject "Bucket") []);
    vm_compute; reflexivity.
Defined.

(** A record with as many [%s] as arguments renders; the record of
    [_processEvent] for an API error does not. *)
Example created_secret_line_renders :
  getMessage {| levelname := INFO; msg := "Created secret %s in namespace %s";
                args := [LValue (VStr "mongo-cluster-admin-credentials");
                         LValue (VStr "default")] |}
    = Return "Created secret mongo-cluster-admin-credentials in namespace default".
Proof. vm_compute. reflexivity. Qed.

Example api_error_line_does_not_render :
  getMessage {| levelname := ERROR; msg := "API error with {} object {}: {}";
                args := [LValue (VStr "ADDED"); LValue (VCluster (cluster None));
                         LExc (ApiException 403)] |}
    = Raise (TypeError "not all arguments converted during string formatting").
Proof. vm_compute. reflexivity. Qed.

(** An event whose type is a dict: the membership test raises. *)
Example processEvent_of_unhashable_type :
  (_processEvent (<["type" := VDict ∅]> {["object" := VCluster (cluster None)]})
     (world (store [] 0))).1
    = Raise (TypeError "unhashable type").
Proof. vm_compute. reflexivity. Qed.

Lemma added_on_unreachable_platform :
  _processEvent (event "ADDED" (VCluster (cluster None))) unreachable
    = (Raise (OtherError "MaxRetryError"),
       (_add (VCluster (cluster None)) unreachable).2).
Proof.
  apply (processEvent_propagates_other_errors
           (event "ADDED" (VCluster (cluster None))) "ADDED"
           (VCluster (cluster None)) _add (OtherError "MaxRetryError") unreachable);
    [reflexivity | reflexivity | reflexivity | apply run_eq; reflexivity
    | intros; discriminate].
Defined.

End MoreOnThePlatform.
